(** * EthioRoute cost engine (script.js): a shallow embedding and its properties

    The engine computes on JavaScript numbers, which are IEEE 754 binary64
    values.  They are embedded as Rocq's primitive [float]s, so every
    arithmetic step below rounds exactly as the script's does; the day and
    stop counts are numbers like the rest, as [parseInt] returns them.
    Facts about rounding are derived from the bit-level specification of
    the primitive operations.

    Strings are [string]s.  The two regular expressions of the script and
    [toFixed] are written out as functions; the digits [Number::toString]
    gives a number are left to the host, as a type class.  The rate table is
    an object, and a lookup in it goes on to [Object.prototype] as the
    language has it.  The rule table is a list of records and the [for] loop
    over it is a left fold over an explicit accumulator.  [log] and the
    [TypeError] raised by reading a property of [undefined] are threaded
    through a small state-and-exception monad.  Reading the form and
    rendering the report are left out. *)

From Stdlib Require Import ZArith Bool List String Ascii Lia.
From Stdlib Require Import Floats DecimalString.
Import ListNotations.

Set Warnings "-inexact-float".

(** ** JavaScript numbers *)

Module JS.
Local Open Scope float_scope.

(** The relational operators on numbers: [a > b], [a >= b], [a < b] and
    [a <= b] are all [false] as soon as one side is NaN. *)
Definition gt (a b : float) : bool := b <? a.
Definition ge (a b : float) : bool := b <=? a.
Definition lt (a b : float) : bool := a <? b.
Definition le (a b : float) : bool := a <=? b.

Definition is_pos_zero (x : float) : bool := is_zero x && negb (get_sign x).
Definition is_neg_zero (x : float) : bool := is_zero x && get_sign x.

(** [Math.max(a, b)]: NaN when either argument is NaN, [+0] is larger than
    [-0], otherwise the larger of the two. *)
Definition Math_max (a b : float) : float :=
  if is_nan a || is_nan b then nan
  else if is_neg_zero a && is_pos_zero b then b
  else if a <? b then b else a.

(** ToNumber of a property read: a missing property reads as [undefined],
    which arithmetic turns into NaN. *)
Definition ToNumber (v : option float) : float :=
  match v with
  | Some x => x
  | None => nan
  end.

(** Sum of a list of numbers accumulated left to right from [0]. *)
Definition sum (l : list float) : float := fold_left add l 0.
End JS.

(** ** Binary64 values as signs, mantissas and exponents *)

Module Binary64.
(** A float that is finite and not zero, or infinite, of sign [s]. *)
Definition signed (s : bool) (f : spec_float) : Prop :=
  match f with
  | S754_finite s' _ _ | S754_infinity s' => s' = s
  | _ => False
  end.

(** The signed mantissa of a finite float once aligned on exponent [ez]. *)
Definition aligned (s : bool) (m : positive) (e ez : Z) : Z :=
  cond_Zopp s (Zpos (fst (shl_align m e ez))).
End Binary64.

(** ** Strings: the two regular expressions and [toFixed] *)

Module Text.
Local Open Scope string_scope.

Definition is_digit (c : ascii) : bool :=
  let n := nat_of_ascii c in (48 <=? n)%nat && (n <=? 57)%nat.

(** [\w]: letters, digits and the underscore. *)
Definition is_word (c : ascii) : bool :=
  let n := nat_of_ascii c in
  is_digit c
  || ((65 <=? n)%nat && (n <=? 90)%nat)
  || ((97 <=? n)%nat && (n <=? 122)%nat)
  || (n =? 95)%nat.

(** [\s] on the ASCII range: tab, line feed, vertical tab, form feed,
    carriage return and space. *)
Definition is_space (c : ascii) : bool :=
  let n := nat_of_ascii c in
  ((9 <=? n)%nat && (n <=? 13)%nat) || (n =? 32)%nat.

(** The characters [.] does not match. *)
Definition is_line_terminator (c : ascii) : bool :=
  let n := nat_of_ascii c in (n =? 10)%nat || (n =? 13)%nat.

(** Length of the run of digits at the start of [s]. *)
Fixpoint digit_run (s : string) : nat :=
  match s with
  | String c s' => if is_digit c then S (digit_run s') else O
  | EmptyString => O
  end.

(** [s.replace(/\B(?=(\d{3})+(?!\d))/g, ",")].  The pattern matches the
    empty string at a position that is not a word boundary and is followed
    by a run of digits whose length is a positive multiple of three: the
    lookahead needs some [3k] digits followed by a non-digit, and inside a
    run that happens only at its end.  As the next character is a digit,
    [\B] holds exactly when the previous character is a word character.
    [prev_word] tells whether it is ([false] at the start of the string). *)
Fixpoint insert_commas (prev_word : bool) (s : string) : string :=
  match s with
  | EmptyString => EmptyString
  | String c s' =>
      let n := digit_run s in
      let here := prev_word && (0 <? n)%nat && (n mod 3 =? 0)%nat in
      (if here then "," else "") ++ String c (insert_commas (is_word c) s')
  end.

(** Every character of [s] is a decimal digit. *)
Fixpoint all_digits (s : string) : bool :=
  match s with
  | EmptyString => true
  | String c s' => is_digit c && all_digits s'
  end.

(** Thousands separators as the words have it, to compare [insert_commas]
    with: a comma after every digit that is followed by a positive multiple
    of three digits. *)
Fixpoint group_thousands (s : string) : string :=
  match s with
  | EmptyString => EmptyString
  | String c s' =>
      let n := String.length s' in
      String c ((if (0 <? n)%nat && (n mod 3 =? 0)%nat then "," else "")
                ++ group_thousands s')
  end.

(** The display as the words have it, a number rounded to two decimal
    places with comma thousands separators: an optional minus sign, digits
    grouped by threes, a point and two digits. *)
Definition two_decimal_display (s : string) : Prop :=
  exists (negative : bool) (int frac : string),
    all_digits int = true /\ int <> ""
    /\ all_digits frac = true /\ String.length frac = 2%nat
    /\ s = (if negative then "-" else "") ++ group_thousands int ++ "." ++ frac.

(** What follows the last [)] of the first line of [s], when that line has
    one: the greedy [.*] followed by [\)]. *)
Fixpoint after_last_rparen (s : string) : option string :=
  match s with
  | EmptyString => None
  | String c s' =>
      if is_line_terminator c then None
      else match after_last_rparen s' with
           | Some r => Some r
           | None => if Ascii.eqb c ")" then Some s' else None
           end
  end.

Fixpoint skip_spaces (s : string) : string :=
  match s with
  | String c s' => if is_space c then skip_spaces s' else s
  | EmptyString => s
  end.

(** The pattern [\s*\(.*\)] tried at the start of [s]: the text after the
    match.  [\s*] has to take the whole run of spaces, since a shorter one
    leaves a space where [\(] is wanted. *)
Definition match_parenthetical (s : string) : option string :=
  match skip_spaces s with
  | String "(" s' => after_last_rparen s'
  | _ => None
  end.

(** [s.replace(/\s*\(.*\)/, '')]: the leftmost match is removed. *)
Fixpoint strip_parenthetical (s : string) : string :=
  match match_parenthetical s with
  | Some rest => rest
  | None =>
      match s with
      | String c s' => String c (strip_parenthetical s')
      | EmptyString => EmptyString
      end
  end.

Fixpoint zeros (n : nat) : string :=
  match n with
  | O => EmptyString
  | S n' => String "0" (zeros n')
  end.

(** The integer nearest to [m * 2^e * 10^f], the larger one of the two
    when both are as near. *)
Definition nearest_scaled (m : positive) (e : Z) (f : nat) : Z :=
  let scaled := (Zpos m * 10 ^ Z.of_nat f)%Z in
  match e with
  | Zneg k => ((2 * scaled + 2 ^ Zpos k) / (2 * 2 ^ Zpos k))%Z
  | _ => (scaled * 2 ^ e)%Z
  end.

(** [n] is an integer nearest to [m * 2^e * 10^f]: twice its distance to
    that number is at most one, with both sides multiplied by the
    denominator [2^-e] when [e] is negative. *)
Definition nearest_integer (n : Z) (m : positive) (e : Z) (f : nat) : Prop :=
  (2 * Z.abs (n * 2 ^ Z.max 0 (- e)
              - Zpos m * 10 ^ Z.of_nat f * 2 ^ Z.max 0 e)
   <= 2 ^ Z.max 0 (- e))%Z.

(** The decimal digits of [n] with a point before the last [f] of them,
    padded with zeros on the left up to [f + 1] digits. *)
Definition fixed_digits (n : Z) (f : nat) : string :=
  let m := NilZero.string_of_uint (N.to_uint (Z.to_N n)) in
  match f with
  | O => m
  | S _ =>
      let k := String.length m in
      let m := if (k <=? f)%nat then zeros (f + 1 - k) ++ m else m in
      let k := String.length m in
      substring 0 (k - f) m ++ "." ++ substring (k - f) f m
  end.

(** The digits [Number::toString] gives a positive finite number: the
    shortest decimal that reads back as the number, in positional or in
    exponent notation according to its magnitude.  They belong to the
    language, not to the script, and are left to the host. *)
Class Host : Type := { shortest_decimal : float -> string }.

Section WithHost.
Context {host : Host}.

(** [Number::toString], which template literals apply to the numbers they
    interpolate. *)
Definition NumberToString (x : float) : string :=
  match Prim2SF x with
  | S754_nan => "NaN"
  | S754_zero _ => "0"
  | S754_infinity s => (if s then "-" else "") ++ "Infinity"
  | S754_finite s _ _ => (if s then "-" else "") ++ shortest_decimal (abs x)
  end.

(** [x.toFixed(f)]: a number that is not finite, or is at least [10^21]
    in magnitude, is rendered by [Number::toString]; any other is
    rounded to the nearest multiple of [10^-f] of its exact value. *)
Definition toFixed (x : float) (f : nat) : string :=
  match Prim2SF x with
  | S754_nan | S754_infinity _ => NumberToString x
  | S754_zero _ => fixed_digits 0 f
  | S754_finite s m e =>
      (if s then "-" else "")
      ++ (if (1e21 <=? abs x)%float then NumberToString (abs x)
          else fixed_digits (nearest_scaled m e f) f)
  end.

(** [formatETB], script.js lines 10-13.  [typeof amount] is ['number']
    by typing. *)
Definition formatETB (amount : float) : string :=
  if is_nan amount then "0.00"
  else insert_commas false (toFixed amount 2).
End WithHost.
End Text.

Export Text (Host, shortest_decimal, NumberToString, formatETB, toFixed).

(** ** Exceptions and the log *)

(** The only exception the engine can raise: reading a property of
    [undefined]. *)
Inductive exn : Type :=
| TypeError (message : string).

Definition message (e : exn) : string :=
  match e with
  | TypeError m => m
  end.

(** One call of [log]: what it writes to the console and appends to the log
    pane, without the console's time stamp. *)
Record LogEntry : Type := { entry_type : string; entry_message : string }.

(** Computations that may log and may throw. *)
Definition M (A : Type) : Type :=
  list LogEntry -> (exn + A) * list LogEntry.

Definition ret {A : Type} (a : A) : M A := fun l => (inr a, l).

Definition bind {A B : Type} (c : M A) (k : A -> M B) : M B :=
  fun l =>
    match c l with
    | (inl e, l') => (inl e, l')
    | (inr a, l') => k a l'
    end.

Definition lift {A : Type} (r : exn + A) : M A := fun l => (r, l).

Definition try_catch {A : Type} (c : M A) (handler : exn -> M A) : M A :=
  fun l =>
    match c l with
    | (inl e, l') => handler e l'
    | (inr a, l') => (inr a, l')
    end.

Declare Scope engine_scope.
Delimit Scope engine_scope with engine.
Notation "x <- c ;; k" := (bind c (fun x => k))
  (at level 61, c at next level, right associativity) : engine_scope.
Notation "c ;; k" := (bind c (fun _ => k))
  (at level 61, right associativity) : engine_scope.

(** [log(message, type)], script.js lines 15-25. *)
Definition log (message type : string) : M unit :=
  fun l => (inr tt, l ++ [ {| entry_type := type; entry_message := message |} ]).

(** [clearLogs], lines 27-32: the pane is reset to its header and the reset
    is logged; the history of [log] calls keeps growing. *)
Definition clearLogs : M unit := log "Logs cleared." "INFO".

(** ** Data configuration (script.js lines 38-46) *)

Local Open Scope string_scope.
Local Open Scope float_scope.
Local Open Scope engine_scope.

Definition EXPORT_DISCOUNT_FACTOR : float := 0.60.
Definition OPTIMIZATION_DISCOUNT : float := 0.10.

Record TruckProfile : Type :=
  { fuel_efficiency_km_l : float; capacity_teu : float; type : string }.

(** The own properties of the [TRUCK_PROFILES] object. *)
Definition TRUCK_PROFILES : list (string * TruckProfile) :=
  [ ("40FT_DRY_VAN",
     {| fuel_efficiency_km_l := 2.78; capacity_teu := 2; type := "General Cargo" |});
    ("40FT_REEFER",
     {| fuel_efficiency_km_l := 2.5; capacity_teu := 2; type := "Refrigerated Cargo" |});
    ("15MT_FLATBED",
     {| fuel_efficiency_km_l := 3.2; capacity_teu := 0; type := "Non-Containerized" |}) ].

(** [TRUCK_PROFILES] is written as an object literal, so a property it does
    not own is looked up in [Object.prototype].  These are the names found
    there; each is bound to a function, or for [__proto__] to the prototype
    object itself, and none of these values has a property called
    [fuel_efficiency_km_l]. *)
Definition Object_prototype : list string :=
  [ "constructor"; "hasOwnProperty"; "isPrototypeOf"; "propertyIsEnumerable";
    "toLocaleString"; "toString"; "valueOf"; "__proto__";
    "__defineGetter__"; "__defineSetter__";
    "__lookupGetter__"; "__lookupSetter__" ].

(** What [TRUCK_PROFILES[truckType]] evaluates to. *)
Inductive Truck : Type :=
| Profile (p : TruckProfile)
| Inherited (key : string)
| Undefined.

Fixpoint own_property (key : string) (o : list (string * TruckProfile))
  : option TruckProfile :=
  match o with
  | [] => None
  | (k, p) :: o' => if String.eqb key k then Some p else own_property key o'
  end.

Definition TRUCK_PROFILES_get (truckType : string) : Truck :=
  match own_property truckType TRUCK_PROFILES with
  | Some p => Profile p
  | None =>
      if existsb (String.eqb truckType) Object_prototype
      then Inherited truckType
      else Undefined
  end.

(** [truck.fuel_efficiency_km_l]: a [TypeError] on [undefined] (with the
    message V8 gives it), the number on a profile, [undefined] on anything
    else. *)
Definition read_fuel_efficiency_km_l (truck : Truck) : exn + option float :=
  match truck with
  | Undefined =>
      inl (TypeError
             "Cannot read properties of undefined (reading 'fuel_efficiency_km_l')")
  | Profile p => inr (Some (fuel_efficiency_km_l p))
  | Inherited _ => inr None
  end.

(** ** Core engine logic *)

Record TransportResult : Type :=
  { fuelCostETB : float;
    driverCostETB : float;
    truckRentETB : float;
    totalTransportCost : float;
    totalLitersUsed : float }.

(** [calculateTransportCost], script.js lines 55-74. *)
Definition calculateTransportCost
           (distanceKm : float) (truckType : string)
           (estimatedDays driverDailyWage fuelPrice truckRentalCost : float)
  : exn + TransportResult :=
  let truck := TRUCK_PROFILES_get truckType in
  let daysToCharge := JS.Math_max 1 estimatedDays in
  match read_fuel_efficiency_km_l truck with
  | inl e => inl e
  | inr efficiency =>
      let totalLiters := distanceKm / JS.ToNumber efficiency in
      let fuelCostETB := totalLiters * fuelPrice in
      let driverCostETB := daysToCharge * driverDailyWage in
      let truckRentETB := daysToCharge * truckRentalCost in
      let totalTransportCost := fuelCostETB + driverCostETB + truckRentETB in
      inr {| fuelCostETB := fuelCostETB;
             driverCostETB := driverCostETB;
             truckRentETB := truckRentETB;
             totalTransportCost := totalTransportCost;
             totalLitersUsed := totalLiters |}
  end.

Record DutyResult : Type := { dutyCost : float; dutyNotes : string }.

Inductive TariffUnit : Type :=
| per_container
| per_shipment
| per_day_after_free_period.

(** An entry of [DYNAMIC_TARIFFS]; only the storage rule has [free_days]. *)
Module Tariff.
Record t : Type :=
  { name : string;
    rate_birr : float;
    unit : TariffUnit;
    free_days : option float;
    is_export_eligible : bool }.
End Tariff.

(** An entry of the breakdown. *)
Module Item.
Record t : Type := { name : string; cost : float; notes : string }.
End Item.

Record TariffResult : Type :=
  { totalTariffCost : float; breakdown : list Item.t }.

Record TaxResult : Type :=
  { vatCost : float; whtCost : float; totalTax : float }.

(** The input record [handleCalculation] gathers, lines 316-331. *)
Record Inputs : Type :=
  { distanceKm : float;
    estimatedDays : float;
    truckType : string;
    isExport : bool;
    numStops : float;
    cifValue : float;
    driverCost : float;
    truckRentalCost : float;
    fuelPrice : float;
    vatRate : float;
    whtRate : float;
    inspectionFee : float;
    handlingCost : float;
    customsDutyRate : float }.

Module Optimization.
Record t : Type :=
  { originalDistance : float;
    actualDistance : float;
    notes : string;
    numStops : float }.
End Optimization.

(** The record [calculateTotalCost] returns, lines 206-220. *)
Module Result.
Record t : Type :=
  { totalOptimizedCost : string;
    transport : TransportResult;
    tariffs : TariffResult;
    duty : DutyResult;
    tax : TaxResult;
    rates : Inputs;
    optimization : Optimization.t;
    isExport : bool }.
End Result.

(** What [handleCalculation] leaves in the report container. *)
Inductive Outcome : Type :=
| InputError
| Report (results : Result.t)
| CriticalError (message : string).

Section Engine.
Context {host : Host}.

(** [calculateCustomsDuty], lines 79-93. *)
Definition calculateCustomsDuty
           (cifValue customsDutyRate : float) (isExport : bool) : DutyResult :=
  if negb isExport && JS.gt customsDutyRate 0 then
    let dutyFactor := customsDutyRate / 100 in
    {| dutyCost := cifValue * dutyFactor;
       dutyNotes := "Calculated on CIF Value (" ++ formatETB cifValue
                    ++ " ETB) at " ++ NumberToString customsDutyRate ++ "%." |}
  else
    {| dutyCost := 0;
       dutyNotes := "Customs Duty applies only to Import/Local cargo." |}.

(** The table built at lines 105-109. *)
Definition DYNAMIC_TARIFFS (handlingCost inspectionFee : float)
  : list Tariff.t :=
  [ {| Tariff.name := "Dry Port Handling (40ft)";
       Tariff.rate_birr := handlingCost;
       Tariff.unit := per_container;
       Tariff.free_days := None;
       Tariff.is_export_eligible := true |};
    {| Tariff.name := "Customs Inspection Fee (Fixed)";
       Tariff.rate_birr := inspectionFee;
       Tariff.unit := per_shipment;
       Tariff.free_days := None;
       Tariff.is_export_eligible := false |};
    {| Tariff.name := "Storage Penalty (40ft, per day after 8 days)";
       Tariff.rate_birr := 192.00;
       Tariff.unit := per_day_after_free_period;
       Tariff.free_days := Some 8;
       Tariff.is_export_eligible := false |} ].

(** A template literal's rendering of a property that may be missing. *)
Definition interpolate (v : option float) : string :=
  match v with
  | Some x => NumberToString x
  | None => "undefined"
  end.

(** The loop body, lines 113-129: the base cost of a rule and its note. *)
Definition tariffCost (estimatedDays : float) (tariff : Tariff.t)
  : float * string :=
  match Tariff.unit tariff with
  | per_container => (Tariff.rate_birr tariff, "Base rate for 1 container.")
  | per_shipment => (Tariff.rate_birr tariff, "Fixed mandatory fee.")
  | per_day_after_free_period =>
      let daysOverFreePeriod :=
        JS.Math_max 0 (estimatedDays - JS.ToNumber (Tariff.free_days tariff)) in
      if JS.gt daysOverFreePeriod 0 then
        (daysOverFreePeriod * Tariff.rate_birr tariff,
         "Penalty applied for " ++ NumberToString daysOverFreePeriod
         ++ " days over the " ++ interpolate (Tariff.free_days tariff)
         ++ "-day free period.")
      else (0, "No penalty: Trip completed within the free period.")
  end.

(** Lines 131-135: the export discount. *)
Definition tariffFinal (estimatedDays : float) (isExport : bool)
           (discountMultiplier : float) (tariff : Tariff.t) : float * string :=
  let '(cost, notes) := tariffCost estimatedDays tariff in
  if isExport && Tariff.is_export_eligible tariff then
    (cost * discountMultiplier,
     notes ++ " EXPORT DISCOUNT Applied ("
     ++ NumberToString (EXPORT_DISCOUNT_FACTOR * 100)
     ++ "% off eligible items).")
  else (cost, notes).

(** The test of line 137. *)
Definition tariffReported (estimatedDays : float) (isExport : bool)
           (discountMultiplier : float) (tariff : Tariff.t) : bool :=
  JS.gt (fst (tariffFinal estimatedDays isExport discountMultiplier tariff)) 0
  || JS.gt (Tariff.rate_birr tariff) 0.

(** The entry pushed at lines 139-143. *)
Definition tariffItem (estimatedDays : float) (isExport : bool)
           (discountMultiplier : float) (tariff : Tariff.t) : Item.t :=
  let '(finalCost, notes) :=
    tariffFinal estimatedDays isExport discountMultiplier tariff in
  {| Item.name := Text.strip_parenthetical (Tariff.name tariff);
     Item.cost := finalCost;
     Item.notes := notes |}.

(** One turn of the loop of lines 111-145 on the pair of
    [totalTariffCost] and [breakdown]. *)
Definition tariffStep (estimatedDays : float) (isExport : bool)
           (discountMultiplier : float)
           (state : float * list Item.t) (tariff : Tariff.t)
  : float * list Item.t :=
  let '(totalTariffCost, breakdown) := state in
  if tariffReported estimatedDays isExport discountMultiplier tariff then
    (totalTariffCost
     + fst (tariffFinal estimatedDays isExport discountMultiplier tariff),
     (breakdown ++ [ tariffItem estimatedDays isExport discountMultiplier tariff ])%list)
  else state.

(** [calculateTariffCost], lines 99-151. *)
Definition calculateTariffCost (estimatedDays : float) (isExport : bool)
           (handlingCost inspectionFee : float) : TariffResult :=
  let discountMultiplier := if isExport then 1 - EXPORT_DISCOUNT_FACTOR else 1 in
  let '(totalTariffCost, breakdown) :=
    fold_left (tariffStep estimatedDays isExport discountMultiplier)
              (DYNAMIC_TARIFFS handlingCost inspectionFee) (0, []) in
  {| totalTariffCost := totalTariffCost; breakdown := breakdown |}.

(** [calculateTaxCost], lines 156-165. *)
Definition calculateTaxCost (transportSubtotal vatRate whtRate : float)
  : TaxResult :=
  let vatFactor := vatRate / 100 in
  let whtFactor := whtRate / 100 in
  let vatCost := transportSubtotal * vatFactor in
  let whtCost := transportSubtotal * whtFactor in
  let totalTax := vatCost + whtCost in
  {| vatCost := vatCost; whtCost := whtCost; totalTax := totalTax |}.

(** The route optimization of lines 177-184: the distance charged and the
    note. *)
Definition optimizeRoute (distanceKm numStops : float) : float * string :=
  if JS.ge numStops 3 then
    let actualDistanceKm := distanceKm * (1 - OPTIMIZATION_DISCOUNT) in
    (actualDistanceKm,
     "Route Optimization Applied: Distance reduced by "
     ++ NumberToString (OPTIMIZATION_DISCOUNT * 100) ++ "% (from "
     ++ NumberToString distanceKm ++ " KM to " ++ toFixed actualDistanceKm 2
     ++ " KM) for " ++ NumberToString numStops ++ " delivery stops.")
  else (distanceKm, "No Route Optimization Applied.").

(** [calculateTotalCost], lines 171-221. *)
Definition calculateTotalCost (inputs : Inputs) : M Result.t :=
  log "Starting Total Cost Calculation (Reading all rates from Display)..." "INFO" ;;
  let '(actualDistanceKm, optimizationNotes) :=
    optimizeRoute (distanceKm inputs) (numStops inputs) in
  (if JS.ge (numStops inputs) 3 then log optimizationNotes "SUCCESS" else ret tt) ;;
  transportResults <-
    lift (calculateTransportCost actualDistanceKm (truckType inputs)
            (estimatedDays inputs) (driverCost inputs) (fuelPrice inputs)
            (truckRentalCost inputs)) ;;
  let tariffResults :=
    calculateTariffCost (estimatedDays inputs) (isExport inputs)
                        (handlingCost inputs) (inspectionFee inputs) in
  let dutyResults :=
    calculateCustomsDuty (cifValue inputs) (customsDutyRate inputs)
                         (isExport inputs) in
  let transportSubtotal := totalTransportCost transportResults in
  let dutyCost := dutyCost dutyResults in
  let tariffSubtotal := totalTariffCost tariffResults + dutyCost in
  let taxResults :=
    calculateTaxCost transportSubtotal (vatRate inputs) (whtRate inputs) in
  let totalTax := totalTax taxResults in
  log ("Tax Calculation: VAT (" ++ NumberToString (vatRate inputs)
       ++ "%) + WHT (" ++ NumberToString (whtRate inputs)
       ++ "%) applied to Transport Subtotal.") "INFO" ;;
  let totalOptimizedCost := transportSubtotal + tariffSubtotal + totalTax in
  log ("Total Cost Calculated: " ++ formatETB totalOptimizedCost ++ " ETB")
      "SUCCESS" ;;
  ret {| Result.totalOptimizedCost := formatETB totalOptimizedCost;
         Result.transport := transportResults;
         Result.tariffs := tariffResults;
         Result.duty := dutyResults;
         Result.tax := taxResults;
         Result.rates := inputs;
         Result.optimization :=
           {| Optimization.originalDistance := distanceKm inputs;
              Optimization.actualDistance := actualDistanceKm;
              Optimization.notes := optimizationNotes;
              Optimization.numStops := numStops inputs |};
         Result.isExport := isExport inputs |}.

(** The validation of line 334.  [isNaN(val) && typeof val === 'number']
    holds of the numeric fields that are NaN. *)
Definition invalidInputs (inputs : Inputs) : bool :=
  existsb is_nan
          [ distanceKm inputs; estimatedDays inputs; numStops inputs;
            cifValue inputs; driverCost inputs; truckRentalCost inputs;
            fuelPrice inputs; vatRate inputs; whtRate inputs;
            inspectionFee inputs; handlingCost inputs; customsDutyRate inputs ]
  || JS.le (distanceKm inputs) 0
  || JS.le (estimatedDays inputs) 0
  || JS.lt (numStops inputs) 1.

(** [handleCalculation], lines 312-351, from the gathered record on.
    Reading the form and rendering the report are left out: [Report]
    stands for the call of [generateReport]. *)
Definition handleCalculation (inputs : Inputs) : M Outcome :=
  clearLogs ;;
  if invalidInputs inputs then
    log "Please enter valid, positive numbers for all fields." "ERROR" ;;
    ret InputError
  else
    try_catch
      (results <- calculateTotalCost inputs ;; ret (Report results))
      (fun e =>
         log ("Calculation Failed: " ++ message e) "CRITICAL ERROR" ;;
         ret (CriticalError (message e))).
End Engine.

(** ** Further notions on binary64 values and on strings *)

Module Sign.
(** Zero, finite or infinite, of sign [s]: anything but NaN and the other
    sign. *)
Definition weakly_signed (s : bool) (f : spec_float) : Prop :=
  match f with
  | S754_zero s' | S754_finite s' _ _ | S754_infinity s' => s' = s
  | S754_nan => False
  end.

(** Zero of either sign, or positive, finite or not. *)
Definition nonneg (f : spec_float) : Prop :=
  match f with
  | S754_zero _ | S754_infinity false | S754_finite false _ _ => True
  | _ => False
  end.
End Sign.

(** [s.includes(needle)]. *)
Fixpoint includes (needle s : string) : bool :=
  prefix needle s
  || match s with
     | String _ s' => includes needle s'
     | EmptyString => false
     end.

(** The string without its commas, to say what the separator pattern of
    [formatETB] leaves alone. *)
Fixpoint without_commas (s : string) : string :=
  match s with
  | EmptyString => EmptyString
  | String c s' =>
      if Ascii.eqb c "," then without_commas s' else String c (without_commas s')
  end.

(** ** The rows of the report (script.js lines 232-257) *)

(** The double quote and the line feed, which the templates of the report
    contain. *)
Definition dq : string := String "034" EmptyString.
Definition nl : string := String "010" EmptyString.

Section Reporting.
Context {host : Host}.

(** [formatRow], lines 232-240. *)
Definition formatRow (label : string) (value : float) (isSub : bool) : string :=
  let subClass := if isSub then "sub-item" else "" in
  nl ++ "            <tr>" ++ nl
  ++ "                <td class=" ++ dq ++ subClass ++ dq ++ ">" ++ label
  ++ "</td>" ++ nl
  ++ "                <td>" ++ formatETB value ++ "</td>" ++ nl
  ++ "            </tr>" ++ nl
  ++ "        ".

(** The customs duty row, lines 246-248. *)
Definition dutyRows (results : Result.t) : list string :=
  if JS.gt (dutyCost (Result.duty results)) 0
     || JS.gt (customsDutyRate (Result.rates results)) 0
  then [ formatRow ("&nbsp;&nbsp;Gomruk Customs Duty ("
                    ++ NumberToString (customsDutyRate (Result.rates results))
                    ++ "%)")
                   (dutyCost (Result.duty results)) true ]
  else [].

(** One turn of the [forEach] of lines 251-255 on the rows pushed so far. *)
Definition pushItemRow (results : Result.t) (rows : list string) (item : Item.t)
  : list string :=
  if JS.gt (Item.cost item) 0
     || (includes "Penalty" (Item.name item)
         && JS.gt (estimatedDays (Result.rates results)) 8)
  then (rows ++ [ formatRow ("&nbsp;&nbsp;" ++ Item.name item)
                            (Item.cost item) true ])%list
  else rows.

(** [tariffBreakdownRows] as [generateReport] builds it, lines 243-255. *)
Definition tariffBreakdownRows (results : Result.t) : list string :=
  fold_left (pushItemRow results)
            (breakdown (Result.tariffs results)) (dutyRows results).

(** [finalSubtotalB], line 257. *)
Definition finalSubtotalB (results : Result.t) : float :=
  totalTariffCost (Result.tariffs results) + dutyCost (Result.duty results).
End Reporting.

(** ** Sample data *)

(** The shipment of the end-to-end example. *)
Definition example_inputs : Inputs :=
  {| distanceKm := 500;
     estimatedDays := 10;
     truckType := "40FT_DRY_VAN";
     isExport := false;
     numStops := 1;
     cifValue := 100000;
     driverCost := 1000;
     truckRentalCost := 2000;
     fuelPrice := 50;
     vatRate := 15;
     whtRate := 2;
     inspectionFee := 500;
     handlingCost := 1500;
     customsDutyRate := 10 |}.

(** The same shipment with a truck type that is no key of the rate table
    but a name every object inherits. *)
Definition inherited_key_inputs : Inputs :=
  {| distanceKm := 500;
     estimatedDays := 10;
     truckType := "constructor";
     isExport := false;
     numStops := 1;
     cifValue := 100000;
     driverCost := 1000;
     truckRentalCost := 2000;
     fuelPrice := 50;
     vatRate := 15;
     whtRate := 2;
     inspectionFee := 500;
     handlingCost := 1500;
     customsDutyRate := 10 |}.

(** An export over four stops in a refrigerated truck. *)
Definition multi_stop_inputs : Inputs :=
  {| distanceKm := 500;
     estimatedDays := 10;
     truckType := "40FT_REEFER";
     isExport := true;
     numStops := 4;
     cifValue := 100000;
     driverCost := 1000;
     truckRentalCost := 2000;
     fuelPrice := 50;
     vatRate := 15;
     whtRate := 2;
     inspectionFee := 500;
     handlingCost := 1500;
     customsDutyRate := 10 |}.

(** The same shipment exported, with no duty rate, nothing to inspect and
    no handling. *)
Definition export_inputs : Inputs :=
  {| distanceKm := 500;
     estimatedDays := 10;
     truckType := "40FT_DRY_VAN";
     isExport := true;
     numStops := 1;
     cifValue := 0;
     driverCost := 1000;
     truckRentalCost := 2000;
     fuelPrice := 50;
     vatRate := 15;
     whtRate := 2;
     inspectionFee := 0;
     handlingCost := 0;
     customsDutyRate := 0 |}.

(** The shipment of the example in a truck the rate table does not know. *)
Definition unknown_truck_inputs : Inputs :=
  {| distanceKm := 500;
     estimatedDays := 10;
     truckType := "20FT_TANKER";
     isExport := false;
     numStops := 3;
     cifValue := 100000;
     driverCost := 1000;
     truckRentalCost := 2000;
     fuelPrice := 50;
     vatRate := 15;
     whtRate := 2;
     inspectionFee := 500;
     handlingCost := 1500;
     customsDutyRate := 10 |}.

(** A form left with no days: it does not pass the validation. *)
Definition zero_days_inputs : Inputs :=
  {| distanceKm := 500;
     estimatedDays := 0;
     truckType := "40FT_DRY_VAN";
     isExport := false;
     numStops := 1;
     cifValue := 100000;
     driverCost := 1000;
     truckRentalCost := 2000;
     fuelPrice := 50;
     vatRate := 15;
     whtRate := 2;
     inspectionFee := 500;
     handlingCost := 1500;
     customsDutyRate := 10 |}.

(** A shipment that passes the validation and whose fuel cost is beyond the
    largest binary64 number. *)
Definition overflow_inputs : Inputs :=
  {| distanceKm := 1e308;
     estimatedDays := 10;
     truckType := "40FT_DRY_VAN";
     isExport := false;
     numStops := 1;
     cifValue := 100000;
     driverCost := 1000;
     truckRentalCost := 2000;
     fuelPrice := 1e10;
     vatRate := 15;
     whtRate := 2;
     inspectionFee := 500;
     handlingCost := 1500;
     customsDutyRate := 10 |}.

(** A host that knows the digits of the integers below [2^53] and of
    nothing else.  The properties below hold for all hosts; this one serves
    where a concrete one is wanted. *)
Definition integer_digits (x : float) : string :=
  match Prim2SF x with
  | S754_finite _ m e =>
      match e with
      | Zneg k =>
          if (Zpos m mod 2 ^ Zpos k =? 0)%Z
          then NilZero.string_of_uint (N.to_uint (Z.to_N (Zpos m / 2 ^ Zpos k)))
          else ""
      | _ =>
          if (Zpos m * 2 ^ e <? 2 ^ 53)%Z
          then NilZero.string_of_uint (N.to_uint (Z.to_N (Zpos m * 2 ^ e)))
          else ""
      end
  | _ => ""
  end.

Definition integer_host : Host := {| shortest_decimal := integer_digits |}.

(** * Facts on binary64 arithmetic

    Derived from the specification of the primitive operations
    ([FloatAxioms]) over [SpecFloat]. *)

Module FloatFacts.
Import Binary64.
Local Open Scope Z_scope.

Lemma digits2_pos_bounds (m : positive) :
  2 ^ (Zpos (digits2_pos m) - 1) <= Zpos m < 2 ^ Zpos (digits2_pos m).
Proof.
  induction m as [p IH | p IH | ]; cbn [digits2_pos].
  - rewrite Pos2Z.inj_succ. change (Zpos p~1) with (2 * Zpos p + 1).
    replace (Z.succ (Zpos (digits2_pos p)) - 1)
      with (Z.succ (Zpos (digits2_pos p) - 1)) by lia.
    rewrite !Z.pow_succ_r by lia.
    set (lo := 2 ^ (Zpos (digits2_pos p) - 1)) in *.
    set (hi := 2 ^ Zpos (digits2_pos p)) in *. clearbody lo hi. lia.
  - rewrite Pos2Z.inj_succ. change (Zpos p~0) with (2 * Zpos p).
    replace (Z.succ (Zpos (digits2_pos p)) - 1)
      with (Z.succ (Zpos (digits2_pos p) - 1)) by lia.
    rewrite !Z.pow_succ_r by lia.
    set (lo := 2 ^ (Zpos (digits2_pos p) - 1)) in *.
    set (hi := 2 ^ Zpos (digits2_pos p)) in *. clearbody lo hi. lia.
  - cbn. lia.
Qed.

Lemma shr_1_m (r : shr_record) :
  0 <= shr_m r -> shr_m (shr_1 r) = shr_m r / 2.
Proof.
  destruct r as [m b s]. cbn [shr_m]. intros Hm.
  rewrite <- Z.div2_div.
  destruct m as [ | [p | p | ] | p ]; try reflexivity; lia.
Qed.

Lemma iter_shr_1_m (p : positive) :
  forall r, 0 <= shr_m r ->
            shr_m (iter_pos shr_1 p r) = shr_m r / 2 ^ Zpos p.
Proof.
  induction p as [p IH | p IH | ]; intros r Hr; cbn [iter_pos].
  - assert (H1 : 0 <= shr_m (shr_1 r)).
    { rewrite shr_1_m by assumption. apply Z.div_pos; lia. }
    assert (H2 : 0 <= shr_m (iter_pos shr_1 p (shr_1 r))).
    { rewrite IH by assumption. apply Z.div_pos; lia. }
    rewrite IH, IH, shr_1_m by assumption.
    rewrite !Z.div_div by lia.
    f_equal. change (Zpos p~1) with (2 * Zpos p + 1).
    rewrite Z.pow_add_r, Z.pow_mul_r by lia.
    change (2 ^ 2) with 4. change (2 ^ 1) with 2.
    replace (4 ^ Zpos p) with (2 ^ Zpos p * 2 ^ Zpos p).
    + ring.
    + rewrite <- Z.pow_mul_l. reflexivity.
  - assert (H2 : 0 <= shr_m (iter_pos shr_1 p r)).
    { rewrite IH by assumption. apply Z.div_pos; lia. }
    rewrite IH, IH by assumption.
    rewrite !Z.div_div by lia.
    f_equal. change (Zpos p~0) with (2 * Zpos p).
    rewrite Z.pow_mul_r by lia.
    change (2 ^ 2) with 4.
    rewrite <- Z.pow_mul_l. reflexivity.
  - rewrite shr_1_m by assumption. reflexivity.
Qed.

Lemma shr_record_of_loc_m (m : Z) (l : location) :
  shr_m (shr_record_of_loc m l) = m.
Proof. destruct l as [ | [ | | ] ]; reflexivity. Qed.

(** Shifting a positive mantissa down to the format's precision leaves it
    positive, as long as its exponent is not below the smallest one. *)
Lemma shr_fexp_pos (m e : Z) (l : location) (mrs : shr_record) (e' : Z) :
  0 < m -> -1074 <= e ->
  shr_fexp prec emax m e l = (mrs, e') ->
  0 < shr_m mrs /\ -1074 <= e'.
Proof.
  intros Hm He. destruct m as [ | p | p ]; try lia.
  unfold shr_fexp, shr, fexp, SpecFloat.emin, prec, emax. cbn [Zdigits2].
  pose proof (digits2_pos_bounds p) as [Hlo _].
  set (d := Zpos (digits2_pos p)) in *.
  assert (Hd : 0 < d) by (subst d; lia).
  destruct (Z.max (d + e - 53) (3 - 1024 - 53) - e) as [ | q | q ] eqn:Hn;
    intros E; inversion E; subst; clear E;
    rewrite ?shr_record_of_loc_m; try (split; lia).
  rewrite iter_shr_1_m by (rewrite shr_record_of_loc_m; lia).
  rewrite shr_record_of_loc_m. split; [ | lia ].
  apply Z.div_str_pos. split; [ lia | ].
  apply Z.le_trans with (2 ^ (d - 1)); [ | assumption ].
  apply Z.pow_le_mono_r; lia.
Qed.

Lemma round_nearest_even_ge (m : Z) (l : location) :
  m <= round_nearest_even m l.
Proof.
  destruct l as [ | [ | | ] ]; cbn; try destruct (Z.even m); lia.
Qed.

Lemma binary_round_aux_signed (s : bool) (m e : Z) (l : location) :
  0 < m -> -1074 <= e -> signed s (binary_round_aux prec emax s m e l).
Proof.
  intros Hm He. unfold binary_round_aux.
  destruct (shr_fexp prec emax m e l) as [mrs' e'] eqn:E1.
  apply shr_fexp_pos in E1; try assumption. destruct E1 as [H1 He'].
  destruct (shr_fexp prec emax _ e' loc_Exact) as [mrs'' e''] eqn:E2.
  apply shr_fexp_pos in E2; try assumption.
  - destruct E2 as [H2 _].
    destruct (shr_m mrs'') as [ | q | q ]; try lia.
    destruct (e'' <=? emax - prec); reflexivity.
  - pose proof (round_nearest_even_ge (shr_m mrs') (loc_of_shr_record mrs')).
    lia.
Qed.

Lemma binary_round_signed (s : bool) (m : positive) (e : Z) :
  -1074 <= e -> signed s (binary_round prec emax s m e).
Proof.
  intros He. unfold binary_round.
  destruct (shl_align m e _) as [mz ez] eqn:E.
  apply binary_round_aux_signed; [ lia | ].
  unfold shl_align in E.
  destruct (_ - e) eqn:F; inversion E; subst; try assumption.
  unfold fexp, SpecFloat.emin, prec, emax. lia.
Qed.

Lemma bounded_digits (m : positive) (e : Z) :
  bounded prec emax m e = true ->
  -1074 <= e /\ Zpos (digits2_pos m) <= 53
  /\ (-1074 < e -> Zpos (digits2_pos m) = 53).
Proof.
  unfold bounded, canonical_mantissa, fexp, SpecFloat.emin, prec, emax.
  intros H. apply andb_true_iff in H. destruct H as [H _].
  apply Z.eqb_eq in H. lia.
Qed.

Lemma shl_align_value (m : positive) (e e' : Z) :
  e' <= e -> Zpos (fst (shl_align m e e')) = Zpos m * 2 ^ (e - e').
Proof.
  intros H. unfold shl_align.
  destruct (e' - e) as [ | d | d ] eqn:F; try lia; cbn [fst].
  - replace (e - e') with 0 by lia. lia.
  - change (Pos.iter xO m d) with (shift_pos d m).
    rewrite shift_pos_correct. replace (e - e') with (Zpos d) by lia.
    rewrite Z.pow_pos_fold. ring.
Qed.

Lemma compare_magnitudes (mx : positive) (ex : Z) (my : positive) (ey : Z) :
  bounded prec emax mx ex = true -> bounded prec emax my ey = true ->
  match ex ?= ey with
  | Lt => Lt
  | Gt => Gt
  | Eq => Pos.compare_cont Eq mx my
  end
  = (Zpos (fst (shl_align mx ex (Z.min ex ey)))
     ?= Zpos (fst (shl_align my ey (Z.min ex ey)))).
Proof.
  intros Bx By.
  apply bounded_digits in Bx. destruct Bx as (Hex & Hdx & Hnx).
  apply bounded_digits in By. destruct By as (Hey & Hdy & Hny).
  pose proof (digits2_pos_bounds mx) as [Hlx Hux].
  pose proof (digits2_pos_bounds my) as [Hly Huy].
  assert (P53 : forall d, d <= 53 -> 2 ^ d <= 2 ^ 53)
    by (intros; apply Z.pow_le_mono_r; lia).
  assert (Hsmall_x : Zpos mx < 2 ^ 53) by (specialize (P53 _ Hdx); lia).
  assert (Hsmall_y : Zpos my < 2 ^ 53) by (specialize (P53 _ Hdy); lia).
  rewrite !shl_align_value by lia.
  destruct (Z.compare_spec ex ey) as [E | L | G]; symmetry.
  - subst ey. rewrite Z.min_id, Z.sub_diag, !Z.mul_1_r. reflexivity.
  - apply Z.compare_lt_iff.
    rewrite Z.min_l, Z.sub_diag, Z.mul_1_r by lia.
    rewrite Hny in Hly by lia. change (2 ^ (53 - 1)) with (2 ^ 52) in Hly.
    assert (2 ^ 1 <= 2 ^ (ey - ex)) by (apply Z.pow_le_mono_r; lia).
    change (2 ^ 1) with 2 in *. change (2 ^ 53) with (2 ^ 52 * 2) in *.
    apply Z.lt_le_trans with (2 ^ 52 * 2); [ assumption | ].
    apply Z.mul_le_mono_nonneg; lia.
  - apply Z.compare_gt_iff.
    rewrite Z.min_r, Z.sub_diag, Z.mul_1_r by lia.
    rewrite Hnx in Hlx by lia. change (2 ^ (53 - 1)) with (2 ^ 52) in Hlx.
    assert (2 ^ 1 <= 2 ^ (ex - ey)) by (apply Z.pow_le_mono_r; lia).
    change (2 ^ 1) with 2 in *. change (2 ^ 53) with (2 ^ 52 * 2) in *.
    apply Z.lt_le_trans with (2 ^ 52 * 2); [ assumption | ].
    apply Z.mul_le_mono_nonneg; lia.
Qed.

(** On canonical finite floats the comparison is the comparison of the
    aligned signed mantissas, which is what subtraction rounds. *)
Lemma SFcompare_aligned (sx : bool) (mx : positive) (ex : Z)
      (sy : bool) (my : positive) (ey : Z) :
  bounded prec emax mx ex = true -> bounded prec emax my ey = true ->
  SFcompare (S754_finite sx mx ex) (S754_finite sy my ey)
  = Some (aligned sx mx ex (Z.min ex ey) ?= aligned sy my ey (Z.min ex ey)).
Proof.
  intros Bx By. pose proof (compare_magnitudes mx ex my ey Bx By) as H.
  unfold aligned. cbn [SFcompare]. f_equal.
  destruct sx, sy; cbn [cond_Zopp]; try reflexivity.
  - rewrite Z.compare_opp.
    rewrite (Z.compare_antisym (Zpos (fst (shl_align mx ex (Z.min ex ey))))).
    rewrite <- H. destruct (ex ?= ey); reflexivity.
  - assumption.
Qed.

Lemma SFltb_zero_signed (s : bool) (f : spec_float) :
  signed s f -> SFltb (S754_zero false) f = negb s.
Proof.
  destruct f as [ s' | s' | | s' m e ]; cbn; intros H;
    try contradiction; subst s'; destruct s; reflexivity.
Qed.

(** Thanks to gradual underflow a difference is positive exactly when the
    left operand is the larger one: it never rounds to zero. *)
Lemma SFsub_pos (x y : spec_float) :
  valid_binary x = true -> valid_binary y = true ->
  SFltb (S754_zero false) (SF64sub x y) = SFltb y x.
Proof.
  intros Vx Vy.
  destruct x as [ sx | sx | | sx mx ex ], y as [ sy | sy | | sy my ey ];
    try reflexivity;
    try (destruct sx; reflexivity);
    try (destruct sy; reflexivity);
    try (destruct sx, sy; reflexivity).
  cbn [valid_binary] in Vx, Vy.
  unfold SFltb at 2. rewrite SFcompare_aligned by assumption.
  unfold SF64sub, SFsub. rewrite (Z.min_comm ey ex).
  fold (aligned sx mx ex (Z.min ex ey)). fold (aligned sy my ey (Z.min ex ey)).
  set (a := aligned sx mx ex (Z.min ex ey)).
  set (b := aligned sy my ey (Z.min ex ey)).
  assert (Hez : -1074 <= Z.min ex ey).
  { apply bounded_digits in Vx, Vy. lia. }
  destruct (a - b) as [ | p | p ] eqn:D; cbn [binary_normalize].
  - replace (b ?= a) with Eq by (symmetry; apply Z.compare_eq_iff; lia).
    reflexivity.
  - rewrite (SFltb_zero_signed false) by (apply binary_round_signed; assumption).
    replace (b ?= a) with Lt by (symmetry; apply Z.compare_lt_iff; lia).
    reflexivity.
  - rewrite (SFltb_zero_signed true) by (apply binary_round_signed; assumption).
    replace (b ?= a) with Gt by (symmetry; apply Z.compare_gt_iff; lia).
    reflexivity.
Qed.

Lemma SFcompare_refl (f : spec_float) :
  f <> S754_nan -> SFcompare f f = Some Eq.
Proof.
  destruct f as [ s | s | | s m e ]; intros H; try congruence;
    destruct s; cbn; try reflexivity;
    rewrite Z.compare_refl, Pos.compare_cont_refl; reflexivity.
Qed.

Lemma SFcompare_antisym (x y : spec_float) :
  SFcompare y x = option_map CompOpp (SFcompare x y).
Proof.
  destruct x as [ sx | sx | | sx mx ex ], y as [ sy | sy | | sy my ey ];
    try reflexivity;
    try (destruct sx; reflexivity);
    try (destruct sy; reflexivity);
    try (destruct sx, sy; reflexivity).
  destruct sx, sy; cbn; try reflexivity;
    rewrite (Z.compare_antisym ex ey); destruct (ex ?= ey); cbn;
    try reflexivity; f_equal;
    pose proof (Pos.compare_cont_antisym mx my Eq) as H;
    change (CompOpp Eq) with Eq in H; rewrite H; reflexivity.
Qed.

Local Open Scope float_scope.

Lemma is_nan_Prim2SF (x : float) :
  is_nan x = true <-> Prim2SF x = S754_nan.
Proof.
  unfold is_nan. rewrite eqb_spec. unfold SFeqb. split.
  - destruct (Prim2SF x) as [ s | s | | s m e ] eqn:E; try reflexivity;
      rewrite SFcompare_refl by discriminate; discriminate.
  - intros ->. reflexivity.
Qed.

Lemma ltb_not_nan (x y : float) :
  (x <? y) = true -> is_nan x = false /\ is_nan y = false.
Proof.
  rewrite ltb_spec. unfold SFltb. intros H.
  split; apply not_true_is_false; intros N; apply is_nan_Prim2SF in N;
    rewrite N in H; [ | destruct (Prim2SF x) ]; discriminate.
Qed.

Lemma leb_not_nan (x y : float) :
  (x <=? y) = true -> is_nan x = false /\ is_nan y = false.
Proof.
  rewrite leb_spec. unfold SFleb. intros H.
  split; apply not_true_is_false; intros N; apply is_nan_Prim2SF in N;
    rewrite N in H; [ | destruct (Prim2SF x) ]; discriminate.
Qed.

Lemma ltb_leb_false (x y : float) : (x <? y) = true -> (y <=? x) = false.
Proof.
  rewrite ltb_spec, leb_spec. unfold SFltb, SFleb.
  rewrite (SFcompare_antisym (Prim2SF x) (Prim2SF y)).
  destruct (SFcompare (Prim2SF x) (Prim2SF y)) as [ [ | | ] | ];
    cbn; congruence.
Qed.

Lemma leb_ltb_false (x y : float) : (x <=? y) = true -> (y <? x) = false.
Proof.
  rewrite ltb_spec, leb_spec. unfold SFltb, SFleb.
  rewrite (SFcompare_antisym (Prim2SF x) (Prim2SF y)).
  destruct (SFcompare (Prim2SF x) (Prim2SF y)) as [ [ | | ] | ];
    cbn; congruence.
Qed.

(** Numbers other than NaN are totally ordered. *)
Lemma not_leb_ltb (x y : float) :
  is_nan x = false -> is_nan y = false ->
  (x <=? y) = false -> (y <? x) = true.
Proof.
  intros Nx Ny. rewrite ltb_spec, leb_spec. unfold SFltb, SFleb.
  rewrite (SFcompare_antisym (Prim2SF x) (Prim2SF y)).
  destruct (Prim2SF x) as [ sx | sx | | sx mx ex ] eqn:Ex;
    try (apply is_nan_Prim2SF in Ex; congruence);
    (destruct (Prim2SF y) as [ sy | sy | | sy my ey ] eqn:Ey;
     try (apply is_nan_Prim2SF in Ey; congruence));
    match goal with
    | |- context [ SFcompare ?a ?b ] =>
        destruct (SFcompare a b) as [ [ | | ] | ] eqn:C
    end; cbn; try congruence;
    cbn in C; try discriminate; destruct sx; discriminate.
Qed.

(** [x - y > 0] exactly when [x > y]. *)
Theorem sub_pos (x y : float) : (0 <? x - y) = (y <? x).
Proof.
  rewrite !ltb_spec, sub_spec.
  change (Prim2SF 0) with (S754_zero false).
  apply SFsub_pos; apply Prim2SF_valid.
Qed.

Lemma is_finite_Prim2SF (x : float) :
  is_finite x = true ->
  match Prim2SF x with
  | S754_zero _ | S754_finite _ _ _ => True
  | _ => False
  end.
Proof.
  unfold is_finite, is_infinity. rewrite eqb_spec, abs_spec.
  destruct (Prim2SF x) as [ s | s | | s m e ] eqn:E; try exact (fun _ => I).
  - rewrite orb_true_r. discriminate.
  - apply is_nan_Prim2SF in E. rewrite E. discriminate.
Qed.

Lemma sub_diag_finite (x : float) : is_finite x = true -> x - x = 0.
Proof.
  intros F. apply is_finite_Prim2SF in F.
  apply Prim2SF_inj. rewrite sub_spec.
  change (Prim2SF 0) with (S754_zero false).
  destruct (Prim2SF x) as [ s | s | | s m e ]; try contradiction.
  - destruct s; reflexivity.
  - unfold SF64sub, SFsub. rewrite Z.sub_diag. reflexivity.
Qed.

Lemma Math_max_0_gt (r : float) : (0 <? JS.Math_max 0 r) = (0 <? r).
Proof.
  unfold JS.Math_max.
  change (is_nan 0) with false. change (JS.is_neg_zero 0) with false.
  cbn [orb andb].
  destruct (is_nan r) eqn:N.
  - destruct (0 <? r) eqn:L; [ | reflexivity ].
    apply ltb_not_nan in L. destruct L; congruence.
  - destruct (0 <? r) eqn:L; [ assumption | reflexivity ].
Qed.

Lemma Math_max_0_pos (r : float) : (0 <? r) = true -> JS.Math_max 0 r = r.
Proof.
  intros L. unfold JS.Math_max.
  change (is_nan 0) with false. change (JS.is_neg_zero 0) with false.
  cbn [orb andb].
  destruct (ltb_not_nan _ _ L) as [_ ->]. rewrite L. reflexivity.
Qed.

Lemma Math_max_1_nonpos (d : float) : (d <=? 0) = true -> JS.Math_max 1 d = 1.
Proof.
  intros L. unfold JS.Math_max.
  change (is_nan 1) with false. change (JS.is_neg_zero 1) with false.
  cbn [orb andb].
  destruct (leb_not_nan _ _ L) as [-> _].
  replace (1 <? d) with false; [ reflexivity | ].
  symmetry. apply leb_ltb_false.
  revert L. rewrite !leb_spec.
  change (Prim2SF 0) with (S754_zero false).
  change (Prim2SF 1) with (S754_finite false 4503599627370496 (-52)).
  destruct (Prim2SF d) as [ s | s | | s m e ]; try discriminate;
    destruct s; try discriminate; reflexivity.
Qed.
End FloatFacts.

(** * Further facts on binary64 arithmetic: signs *)

Module SignFacts.
Import Binary64 Sign.
Local Open Scope Z_scope.

Lemma shr_fexp_nonneg (m e : Z) (l : location) (mrs : shr_record) (e' : Z) :
  0 <= m -> shr_fexp prec emax m e l = (mrs, e') -> 0 <= shr_m mrs.
Proof.
  intros Hm. unfold shr_fexp, shr.
  destruct (fexp prec emax (Zdigits2 m + e) - e) as [ | q | q ];
    intros E; inversion E; subst; clear E;
    rewrite ?FloatFacts.iter_shr_1_m
      by (rewrite FloatFacts.shr_record_of_loc_m; exact Hm);
    rewrite FloatFacts.shr_record_of_loc_m; try exact Hm.
  apply Z.div_pos; [ exact Hm | apply Z.pow_pos_nonneg; lia ].
Qed.

(** Rounding keeps the sign: it gives a zero, a finite number or an
    infinity of the sign it is given, never NaN. *)
Lemma binary_round_aux_weakly_signed (s : bool) (m e : Z) (l : location) :
  0 <= m -> weakly_signed s (binary_round_aux prec emax s m e l).
Proof.
  intros Hm. unfold binary_round_aux.
  destruct (shr_fexp prec emax m e l) as [mrs' e'] eqn:E1.
  apply shr_fexp_nonneg in E1; [ | exact Hm ].
  destruct (shr_fexp prec emax _ e' loc_Exact) as [mrs'' e''] eqn:E2.
  apply shr_fexp_nonneg in E2.
  - destruct (shr_m mrs'') as [ | q | q ]; try lia; [ reflexivity | ].
    destruct (e'' <=? emax - prec); reflexivity.
  - pose proof (FloatFacts.round_nearest_even_ge
                  (shr_m mrs') (loc_of_shr_record mrs')).
    lia.
Qed.

(** A positive mantissa whose value is at least the smallest subnormal is
    not shifted away. *)
Lemma shr_fexp_pos_above (m e : Z) (l : location) (mrs : shr_record) (e' : Z) :
  0 < m -> (e < -1074 -> 2 ^ (-1074 - e) <= m) ->
  shr_fexp prec emax m e l = (mrs, e') ->
  0 < shr_m mrs /\ -1074 <= e'.
Proof.
  intros Hm Hv. destruct m as [ | p | p ]; try lia.
  unfold shr_fexp, shr, fexp, SpecFloat.emin, prec, emax. cbn [Zdigits2].
  pose proof (FloatFacts.digits2_pos_bounds p) as [Hlo _].
  set (d := Zpos (digits2_pos p)) in *.
  assert (Hd : 0 < d) by (subst d; lia).
  destruct (Z.max (d + e - 53) (3 - 1024 - 53) - e) as [ | q | q ] eqn:Hn;
    intros E; inversion E; subst; clear E;
    rewrite ?FloatFacts.shr_record_of_loc_m; try (split; lia).
  rewrite FloatFacts.iter_shr_1_m
    by (rewrite FloatFacts.shr_record_of_loc_m; lia).
  rewrite FloatFacts.shr_record_of_loc_m. split; [ | lia ].
  apply Z.div_str_pos. split; [ lia | ].
  destruct (Z.max_spec (d + e - 53) (3 - 1024 - 53)) as [[_ Hmax] | [_ Hmax]];
    rewrite Hmax in Hn.
  - replace (Zpos q) with (-1074 - e) by lia. apply Hv. lia.
  - apply Z.le_trans with (2 ^ (d - 1)); [ | assumption ].
    apply Z.pow_le_mono_r; lia.
Qed.

Lemma binary_round_aux_signed_above (s : bool) (m e : Z) (l : location) :
  0 < m -> (e < -1074 -> 2 ^ (-1074 - e) <= m) ->
  signed s (binary_round_aux prec emax s m e l).
Proof.
  intros Hm Hv. unfold binary_round_aux.
  destruct (shr_fexp prec emax m e l) as [mrs' e'] eqn:E1.
  apply shr_fexp_pos_above in E1; try assumption. destruct E1 as [H1 He'].
  destruct (shr_fexp prec emax _ e' loc_Exact) as [mrs'' e''] eqn:E2.
  apply FloatFacts.shr_fexp_pos in E2; try assumption.
  - destruct E2 as [H2 _].
    destruct (shr_m mrs'') as [ | q | q ]; try lia.
    destruct (e'' <=? emax - prec); reflexivity.
  - pose proof (FloatFacts.round_nearest_even_ge
                  (shr_m mrs') (loc_of_shr_record mrs')).
    lia.
Qed.

Lemma SFleb_zero_weakly_signed (f : spec_float) :
  weakly_signed false f -> SFleb (S754_zero false) f = true.
Proof.
  destruct f as [ s | s | | s m e ]; cbn; intros H;
    try contradiction; subst; reflexivity.
Qed.

Lemma SFltb_zero_weakly_signed_neg (f : spec_float) :
  weakly_signed true f -> SFltb (S754_zero false) f = false.
Proof.
  destruct f as [ s | s | | s m e ]; cbn; intros H;
    try contradiction; subst; reflexivity.
Qed.

Lemma binary_round_weakly_signed (s : bool) (m : positive) (e : Z) :
  weakly_signed s (binary_round prec emax s m e).
Proof.
  unfold binary_round.
  destruct (shl_align m e _) as [mz ez].
  apply binary_round_aux_weakly_signed. lia.
Qed.

Local Open Scope float_scope.

Lemma ltb_leb (x y : float) : (x <? y) = true -> (x <=? y) = true.
Proof.
  rewrite ltb_spec, leb_spec. unfold SFltb, SFleb.
  destruct (SFcompare (Prim2SF x) (Prim2SF y)) as [ [ | | ] | ];
    congruence.
Qed.

(** Numbers other than NaN are totally ordered, the other way round. *)
Lemma not_ltb_leb (x y : float) :
  is_nan x = false -> is_nan y = false ->
  (x <? y) = false -> (y <=? x) = true.
Proof.
  intros Nx Ny Hlt.
  destruct (y <=? x) eqn:Hle; [ reflexivity | ].
  rewrite (FloatFacts.not_leb_ltb y x Ny Nx Hle) in Hlt. discriminate.
Qed.

Lemma pos_shape (x : float) :
  (0 <? x) = true ->
  exists m e, Prim2SF x = S754_infinity false \/ Prim2SF x = S754_finite false m e.
Proof.
  rewrite ltb_spec. change (Prim2SF 0) with (S754_zero false).
  destruct (Prim2SF x) as [ s | s | | s m e ]; try discriminate;
    destruct s; try discriminate; intros _.
  - exists 1%positive, 0%Z. left. reflexivity.
  - exists m, e. right. reflexivity.
Qed.

Lemma leb_zero_weakly_signed (x : float) :
  weakly_signed false (Prim2SF x) -> (0 <=? x) = true.
Proof.
  rewrite leb_spec. change (Prim2SF 0) with (S754_zero false).
  destruct (Prim2SF x) as [ s | s | | s m e ]; cbn; intros H;
    try contradiction; subst; reflexivity.
Qed.

Lemma nonneg_shape (x : float) : (0 <=? x) = true -> nonneg (Prim2SF x).
Proof.
  rewrite leb_spec. change (Prim2SF 0) with (S754_zero false).
  destruct (Prim2SF x) as [ s | s | | s m e ]; try discriminate;
    try exact (fun _ => I); destruct s; try discriminate; exact (fun _ => I).
Qed.

(** The product of a positive number and a positive finite one is zero,
    positive or infinite: never negative, never NaN. *)
Lemma mul_pos_nonneg (x k : float) (mk : positive) (ek : Z) :
  Prim2SF k = S754_finite false mk ek ->
  (0 <? x) = true -> (0 <=? x * k) = true.
Proof.
  intros Hk Hx. apply leb_zero_weakly_signed. rewrite mul_spec, Hk.
  destruct (pos_shape x Hx) as (m & e & [ -> | -> ]); cbn; [ reflexivity | ].
  apply binary_round_aux_weakly_signed. lia.
Qed.

(** A product with a positive finite number is positive only if the other
    factor is. *)
Lemma mul_pos_inv (x k : float) (mk : positive) (ek : Z) :
  Prim2SF k = S754_finite false mk ek ->
  (0 <? x * k) = true -> (0 <? x) = true.
Proof.
  intros Hk. rewrite !ltb_spec, mul_spec, Hk.
  change (Prim2SF 0) with (S754_zero false).
  destruct (Prim2SF x) as [ s | s | | s m e ]; try (destruct s; cbn; congruence);
    try (cbn; congruence).
  destruct s; [ | reflexivity ].
  unfold SF64mul, SFmul. cbn [xorb].
  rewrite SFltb_zero_weakly_signed_neg
    by (apply binary_round_aux_weakly_signed; lia).
  discriminate.
Qed.

(** Multiplying a positive number by a finite number that is at least 1
    gives a positive number: the product does not underflow to zero. *)
Lemma mul_pos_pos (x k : float) (mk : positive) (ek : Z) :
  Prim2SF k = S754_finite false mk ek ->
  (2 ^ (- ek) <= Zpos mk)%Z ->
  (0 <? x) = true -> (0 <? x * k) = true.
Proof.
  intros Hk Hone Hx. rewrite ltb_spec, mul_spec, Hk.
  change (Prim2SF 0) with (S754_zero false).
  pose proof (Prim2SF_valid x) as V.
  destruct (pos_shape x Hx) as (m & e & [ E | E ]); rewrite E in *;
    [ reflexivity | ].
  cbn [valid_binary] in V. apply FloatFacts.bounded_digits in V.
  destruct V as (He & _).
  unfold SF64mul, SFmul. cbn [xorb].
  rewrite (FloatFacts.SFltb_zero_signed false); [ reflexivity | ].
  apply binary_round_aux_signed_above; [ lia | ].
  intros Hlow.
  apply Z.le_trans with (2 ^ (- ek))%Z.
  - apply Z.pow_le_mono_r; lia.
  - rewrite Pos2Z.inj_mul. nia.
Qed.

Lemma leb_zero_nonneg (x : float) :
  nonneg (Prim2SF x) -> (0 <=? x) = true.
Proof.
  rewrite leb_spec. change (Prim2SF 0) with (S754_zero false).
  destruct (Prim2SF x) as [ s | s | | s m e ]; cbn; try contradiction;
    try reflexivity; destruct s; try contradiction; reflexivity.
Qed.

Lemma SFadd_nonneg (a b : spec_float) :
  nonneg a -> nonneg b -> nonneg (SF64add a b).
Proof.
  destruct a as [ sa | sa | | sa ma ea ]; cbn [nonneg]; try contradiction;
    destruct b as [ sb | sb | | sb mb eb ]; cbn [nonneg]; try contradiction;
    intros Ha Hb.
  - destruct sa, sb; exact I.
  - destruct sb; [ contradiction | exact I ].
  - destruct sb; [ contradiction | exact I ].
  - destruct sa; [ contradiction | exact I ].
  - destruct sa; [ contradiction | ]. destruct sb; [ contradiction | exact I ].
  - destruct sa; [ contradiction | exact I ].
  - destruct sa; [ contradiction | exact I ].
  - destruct sb; [ contradiction | exact I ].
  - destruct sa; [ contradiction | ]. destruct sb; [ contradiction | ].
    unfold SF64add, SFadd. cbn [cond_Zopp].
    change (Zpos (fst (shl_align ma ea (Z.min ea eb)))
            + Zpos (fst (shl_align mb eb (Z.min ea eb))))%Z
      with (Zpos (fst (shl_align ma ea (Z.min ea eb))
                  + fst (shl_align mb eb (Z.min ea eb)))).
    cbn [binary_normalize].
    pose proof (binary_round_weakly_signed
                  false
                  (fst (shl_align ma ea (Z.min ea eb))
                   + fst (shl_align mb eb (Z.min ea eb)))
                  (Z.min ea eb)) as H.
    destruct (binary_round prec emax false _ _) as [ s | s | | s m e ];
      cbn in H; try contradiction; subst; exact I.
Qed.

(** Sums of numbers that are not negative are not negative. *)
Lemma add_nonneg (a b : float) :
  (0 <=? a) = true -> (0 <=? b) = true -> (0 <=? a + b) = true.
Proof.
  intros Ha Hb. apply nonneg_shape in Ha, Hb.
  apply leb_zero_nonneg. rewrite add_spec. apply SFadd_nonneg; assumption.
Qed.

Lemma is_nan_add_l (a b : float) : is_nan a = true -> is_nan (a + b) = true.
Proof.
  intros N. apply FloatFacts.is_nan_Prim2SF in N.
  apply FloatFacts.is_nan_Prim2SF. rewrite add_spec, N. reflexivity.
Qed.

Lemma is_nan_add_r (a b : float) : is_nan b = true -> is_nan (a + b) = true.
Proof.
  intros N. apply FloatFacts.is_nan_Prim2SF in N.
  apply FloatFacts.is_nan_Prim2SF. rewrite add_spec, N.
  destruct (Prim2SF a); reflexivity.
Qed.

Lemma is_nan_mul_l (a b : float) : is_nan a = true -> is_nan (a * b) = true.
Proof.
  intros N. apply FloatFacts.is_nan_Prim2SF in N.
  apply FloatFacts.is_nan_Prim2SF. rewrite mul_spec, N. reflexivity.
Qed.

(** Among numbers, only 1 is neither below nor above 1. *)
Lemma leb_not_ltb_one (d : float) :
  (1 <=? d) = true -> (1 <? d) = false -> d = 1.
Proof.
  rewrite leb_spec, ltb_spec. unfold SFleb, SFltb.
  change (Prim2SF 1) with (S754_finite false 4503599627370496 (-52)).
  intros Hle Hlt. apply Prim2SF_inj.
  change (Prim2SF 1) with (S754_finite false 4503599627370496 (-52)).
  destruct (Prim2SF d) as [ s | s | | s m e ]; try discriminate;
    try (destruct s; discriminate).
  destruct s; [ discriminate | ].
  cbv beta iota delta [SFcompare] in Hle, Hlt.
  destruct (Z.compare_spec (-52) e) as [ E | L | G ]; try discriminate.
  subst e. f_equal.
  change (Pos.compare_cont Eq 4503599627370496 m)
    with (Pos.compare 4503599627370496 m) in *.
  destruct (Pos.compare_spec 4503599627370496 m) as [ E | L | G ];
    try discriminate. symmetry. exact E.
Qed.

Lemma Math_max_1_ge (d : float) : (1 <=? d) = true -> JS.Math_max 1 d = d.
Proof.
  intros L. unfold JS.Math_max.
  change (is_nan 1) with false. change (JS.is_neg_zero 1) with false.
  cbn [orb andb].
  destruct (FloatFacts.leb_not_nan _ _ L) as [_ ->].
  destruct (1 <? d) eqn:Hlt; [ reflexivity | ].
  symmetry. apply leb_not_ltb_one; assumption.
Qed.

Lemma Math_max_1_lt (d : float) : (d <? 1) = true -> JS.Math_max 1 d = 1.
Proof.
  intros L. unfold JS.Math_max.
  change (is_nan 1) with false. change (JS.is_neg_zero 1) with false.
  cbn [orb andb].
  destruct (FloatFacts.ltb_not_nan _ _ L) as [-> _].
  rewrite (FloatFacts.leb_ltb_false d 1 (ltb_leb d 1 L)). reflexivity.
Qed.
End SignFacts.

(** * Facts on the text functions *)

Module TextFacts.
Local Open Scope string_scope.

(** Rounding to the nearest multiple of [10^-f]. *)
Lemma nearest_scaled_nearest (m : positive) (e : Z) (f : nat) :
  Text.nearest_integer (Text.nearest_scaled m e f) m e f.
Proof.
  unfold Text.nearest_integer, Text.nearest_scaled.
  set (S := (Zpos m * 10 ^ Z.of_nat f)%Z).
  destruct e as [ | p | k ].
  - cbn. rewrite !Z.mul_1_r, Z.sub_diag. cbn. lia.
  - replace (Z.max 0 (- Zpos p)) with 0%Z by lia.
    replace (Z.max 0 (Zpos p)) with (Zpos p) by lia.
    rewrite Z.pow_0_r, Z.mul_1_r, Z.sub_diag. cbn. lia.
  - replace (Z.max 0 (- Zneg k)) with (Zpos k) by lia.
    replace (Z.max 0 (Zneg k)) with 0%Z by lia.
    rewrite Z.pow_0_r, Z.mul_1_r.
    assert (HP : (0 < 2 ^ Zpos k)%Z) by (apply Z.pow_pos_nonneg; lia).
    set (P := (2 ^ Zpos k)%Z) in *.
    pose proof (Z.div_mod (2 * S + P) (2 * P) ltac:(lia)) as Hdm.
    pose proof (Z.mod_pos_bound (2 * S + P) (2 * P) ltac:(lia)) as Hb.
    set (n := ((2 * S + P) / (2 * P))%Z) in *.
    set (rem := ((2 * S + P) mod (2 * P))%Z) in *.
    clearbody n rem P. nia.
Qed.

Lemma append_assoc (a b c : string) : (a ++ b) ++ c = a ++ (b ++ c).
Proof. induction a as [ | x a IH ]; cbn; [ reflexivity | rewrite IH; reflexivity ]. Qed.

Lemma length_append (a b : string) :
  String.length (a ++ b) = (String.length a + String.length b)%nat.
Proof. induction a as [ | x a IH ]; cbn; [ reflexivity | rewrite IH; reflexivity ]. Qed.

Lemma all_digits_append (a b : string) :
  Text.all_digits (a ++ b) = Text.all_digits a && Text.all_digits b.
Proof.
  induction a as [ | x a IH ]; cbn; [ reflexivity | ].
  rewrite IH, andb_assoc. reflexivity.
Qed.

Lemma is_digit_is_word (c : ascii) : Text.is_digit c = true -> Text.is_word c = true.
Proof. unfold Text.is_word. intros ->. reflexivity. Qed.

Lemma digit_run_append (ds t : string) :
  Text.all_digits ds = true -> Text.digit_run t = O ->
  Text.digit_run (ds ++ t) = String.length ds.
Proof.
  intros Hd Ht. induction ds as [ | c ds IH ]; cbn in *; [ exact Ht | ].
  apply andb_true_iff in Hd. destruct Hd as [Hc Hd].
  rewrite Hc, IH by assumption. reflexivity.
Qed.

Lemma insert_commas_digits (ds t : string) :
  Text.all_digits ds = true -> Text.digit_run t = O ->
  forall p : bool,
    Text.insert_commas p (ds ++ t)
    = (if p && (0 <? String.length ds)%nat && (String.length ds mod 3 =? 0)%nat
       then "," else "")
      ++ Text.group_thousands ds
      ++ Text.insert_commas (match ds with EmptyString => p | _ => true end) t.
Proof.
  intros Hd Ht. induction ds as [ | c ds IH ]; intros p.
  - cbn [append String.length Text.group_thousands].
    rewrite andb_false_r. reflexivity.
  - cbn [Text.all_digits] in Hd. apply andb_true_iff in Hd. destruct Hd as [Hc Hd].
    specialize (IH Hd true).
    change (String c ds ++ t) with (String c (ds ++ t)).
    cbn [Text.insert_commas].
    change (Text.digit_run (String c (ds ++ t)))
      with (if Text.is_digit c then S (Text.digit_run (ds ++ t)) else O).
    rewrite Hc, digit_run_append by assumption.
    rewrite (is_digit_is_word c Hc), IH.
    cbn [String.length Text.group_thousands andb].
    replace (match ds with EmptyString => true | String _ _ => true end)
      with true by (destruct ds; reflexivity).
    rewrite <- append_assoc.
    destruct (p && (0 <? S (String.length ds))%nat
              && (S (String.length ds) mod 3 =? 0)%nat); reflexivity.
Qed.

Lemma insert_commas_fraction (p : bool) (d1 d2 : ascii) :
  Text.insert_commas p (String "." (String d1 (String d2 EmptyString)))
  = String "." (String d1 (String d2 EmptyString)).
Proof.
  cbn [Text.insert_commas Text.digit_run].
  change (Text.is_digit ".") with false. change (Text.is_word ".") with false.
  cbn [andb Nat.ltb Nat.leb append].
  rewrite !andb_false_r. cbn [append].
  destruct (Text.is_digit d1), (Text.is_digit d2), (Text.is_word d1);
    reflexivity.
Qed.

Lemma string_of_uint_digits (d : Decimal.uint) :
  Text.all_digits (NilEmpty.string_of_uint d) = true.
Proof. induction d; cbn [NilEmpty.string_of_uint Text.all_digits]; auto. Qed.

Lemma decimal_digits (d : Decimal.uint) :
  Text.all_digits (NilZero.string_of_uint d) = true
  /\ NilZero.string_of_uint d <> EmptyString.
Proof.
  split.
  - destruct d; try reflexivity;
      exact (string_of_uint_digits _).
  - destruct d; discriminate.
Qed.

Lemma zeros_digits (n : nat) :
  Text.all_digits (Text.zeros n) = true /\ String.length (Text.zeros n) = n.
Proof.
  induction n as [ | n [IH1 IH2] ]; cbn; [ split; reflexivity | ].
  rewrite IH1, IH2. split; reflexivity.
Qed.

Lemma substring_all (s : string) : substring 0 (String.length s) s = s.
Proof. induction s as [ | c s IH ]; cbn; [ reflexivity | rewrite IH; reflexivity ]. Qed.

Lemma substring_split (j : nat) :
  forall s : string,
    (j <= String.length s)%nat ->
    substring 0 j s ++ substring j (String.length s - j) s = s
    /\ String.length (substring 0 j s) = j.
Proof.
  induction j as [ | j IH ]; intros s Hj.
  - rewrite Nat.sub_0_r, substring_all. destruct s; split; reflexivity.
  - destruct s as [ | c s ]; cbn in Hj; [ lia | ].
    destruct (IH s ltac:(lia)) as [E L].
    cbn [substring String.length Nat.sub append]. rewrite E, L.
    split; reflexivity.
Qed.

Lemma fixed_digits_shape (n : Z) :
  exists int frac : string,
    Text.fixed_digits n 2 = int ++ "." ++ frac
    /\ Text.all_digits int = true /\ int <> EmptyString
    /\ Text.all_digits frac = true /\ String.length frac = 2%nat.
Proof.
  unfold Text.fixed_digits.
  destruct (decimal_digits (N.to_uint (Z.to_N n))) as [Hd Hne].
  set (m := NilZero.string_of_uint (N.to_uint (Z.to_N n))) in *.
  set (m' := if (String.length m <=? 2)%nat
             then Text.zeros (2 + 1 - String.length m) ++ m else m).
  assert (Hm' : Text.all_digits m' = true /\ (3 <= String.length m')%nat).
  { subst m'. destruct (Nat.leb_spec (String.length m) 2) as [Hle | Hgt].
    - destruct (zeros_digits (2 + 1 - String.length m)) as [Z1 Z2].
      rewrite all_digits_append, length_append, Z1, Z2, Hd. split; [ reflexivity | lia ].
    - split; [ exact Hd | lia ]. }
  destruct Hm' as [Hdig Hlen].
  destruct (substring_split (String.length m' - 2) m' ltac:(lia)) as [E L].
  replace (String.length m' - (String.length m' - 2))%nat with 2%nat in E by lia.
  exists (substring 0 (String.length m' - 2) m'), (substring (String.length m' - 2) 2 m').
  rewrite <- E, all_digits_append in Hdig. apply andb_true_iff in Hdig.
  destruct Hdig as [Hi Hf].
  split; [ reflexivity | ]. split; [ exact Hi | ]. split.
  - intros Hempty. rewrite Hempty in L. cbn in L. lia.
  - split; [ exact Hf | ].
    apply (f_equal String.length) in E. rewrite length_append, L in E. lia.
Qed.

Lemma insert_commas_fixed (sign : bool) (int frac : string) :
  Text.all_digits int = true -> String.length frac = 2%nat ->
  Text.insert_commas false ((if sign then "-" else "") ++ int ++ "." ++ frac)
  = (if sign then "-" else "") ++ Text.group_thousands int ++ "." ++ frac.
Proof.
  intros Hi Hf.
  destruct frac as [ | d1 [ | d2 [ | d3 frac ] ] ]; try discriminate Hf.
  assert (Hrun : Text.digit_run ("." ++ String d1 (String d2 EmptyString)) = O)
    by reflexivity.
  pose proof (insert_commas_digits int _ Hi Hrun false) as H.
  cbn [andb] in H. cbn [append] in H. rewrite insert_commas_fraction in H.
  destruct sign.
  - cbn [append Text.insert_commas Text.digit_run].
    change (Text.is_digit "-") with false. change (Text.is_word "-") with false.
    cbn [andb append]. cbn [append] in H. rewrite H. reflexivity.
  - cbn [append]. cbn [append] in H. exact H.
Qed.

Lemma formatETB_finite {host : Host} (x : float) (s : bool) (m : positive) (e : Z) :
  Prim2SF x = S754_finite s m e -> (1e21 <=? abs x)%float = false ->
  exists (n : Z) (int frac : string),
    Text.nearest_integer n m e 2
    /\ Text.fixed_digits n 2 = int ++ "." ++ frac
    /\ Text.all_digits int = true /\ int <> EmptyString
    /\ Text.all_digits frac = true /\ String.length frac = 2%nat
    /\ formatETB x = (if s then "-" else "") ++ Text.group_thousands int ++ "." ++ frac.
Proof.
  intros Hx Hsmall.
  destruct (fixed_digits_shape (Text.nearest_scaled m e 2))
    as (int & frac & Hshape & Hi & Hne & Hf & Hlen).
  exists (Text.nearest_scaled m e 2), int, frac.
  split; [ apply nearest_scaled_nearest | ].
  repeat (split; [ assumption | ]).
  assert (Hnan : is_nan x = false).
  { apply not_true_is_false. intros N.
    apply FloatFacts.is_nan_Prim2SF in N. congruence. }
  unfold formatETB, toFixed. rewrite Hnan, Hx, Hsmall, Hshape.
  apply insert_commas_fixed; assumption.
Qed.

(** A string with no point is no display of a number of hundredths. *)
Lemma prefix_append (n b : string) : prefix n (n ++ b) = true.
Proof.
  induction n as [ | c n IH ]; [ destruct b; reflexivity | ].
  cbn [append prefix]. destruct (ascii_dec c c) as [ _ | N ]; [ exact IH | ].
  contradiction N. reflexivity.
Qed.

Lemma includes_append (n a b : string) : includes n (a ++ n ++ b) = true.
Proof.
  induction a as [ | c a IH ].
  - cbn [append]. destruct (n ++ b) eqn:E; cbn [includes];
      rewrite <- E, prefix_append; reflexivity.
  - cbn [append includes]. rewrite IH. apply orb_true_r.
Qed.

Lemma two_decimal_display_point (s : string) :
  includes "." s = false -> ~ Text.two_decimal_display s.
Proof.
  intros H (negative & int & frac & _ & _ & _ & _ & E). subst s.
  rewrite <- append_assoc, includes_append in H. discriminate H.
Qed.
End TextFacts.

(** * The text functions on samples *)

Example strip_handling :
  Text.strip_parenthetical "Dry Port Handling (40ft)" = "Dry Port Handling".
Proof. reflexivity. Qed.

Example strip_penalty :
  Text.strip_parenthetical "Storage Penalty (40ft, per day after 8 days)"
  = "Storage Penalty".
Proof. reflexivity. Qed.

Example strip_leftmost :
  Text.strip_parenthetical "a (b) c (d) e" = "a e"
  /\ Text.strip_parenthetical "no closing (paren" = "no closing (paren".
Proof. split; reflexivity. Qed.

Example formatETB_samples (host : Host) :
  map formatETB [ 1234567.891; -1234.5; 0.005; 1.005; -0.001; 999.995; 100; nan ]
  = [ "1,234,567.89"; "-1,234.50"; "0.01"; "1.00"; "-0.00"; "1,000.00";
      "100.00"; "0.00" ].
Proof. vm_compute. reflexivity. Qed.

Example formatETB_infinity (host : Host) : formatETB infinity = "Infinity".
Proof. vm_compute. reflexivity. Qed.

Example constant_arithmetic :
  1 - EXPORT_DISCOUNT_FACTOR = 0.40
  /\ 1 - OPTIMIZATION_DISCOUNT = 0.90
  /\ EXPORT_DISCOUNT_FACTOR * 100 = 60
  /\ OPTIMIZATION_DISCOUNT * 100 = 10.
Proof. repeat split. Qed.

(** * Properties of the engine *)

Section Loop.
Context {host : Host}.

Lemma tariffItem_cost (d : float) (ex : bool) (dm : float) (t : Tariff.t) :
  Item.cost (tariffItem d ex dm t) = fst (tariffFinal d ex dm t).
Proof. unfold tariffItem. destruct (tariffFinal d ex dm t). reflexivity. Qed.

Lemma tariffItem_notes (d : float) (ex : bool) (dm : float) (t : Tariff.t) :
  Item.notes (tariffItem d ex dm t) = snd (tariffFinal d ex dm t).
Proof. unfold tariffItem. destruct (tariffFinal d ex dm t). reflexivity. Qed.

Lemma tariffItem_name (d : float) (ex : bool) (dm : float) (t : Tariff.t) :
  Item.name (tariffItem d ex dm t) = Text.strip_parenthetical (Tariff.name t).
Proof. unfold tariffItem. destruct (tariffFinal d ex dm t). reflexivity. Qed.

(** The loop over the rules: the entries pushed are those of the rules that
    pass the test of line 137, in order, and the total is the accumulation
    of their final costs. *)
Lemma tariff_loop (d : float) (ex : bool) (dm : float) (ts : list Tariff.t) :
  forall (total : float) (bd : list Item.t),
    fold_left (tariffStep d ex dm) ts (total, bd)
    = (fold_left add
                 (map (fun t => fst (tariffFinal d ex dm t))
                      (filter (tariffReported d ex dm) ts))
                 total,
       (bd ++ map (tariffItem d ex dm) (filter (tariffReported d ex dm) ts))%list).
Proof.
  induction ts as [ | t ts IH ]; intros total bd; cbn [fold_left filter map].
  - rewrite app_nil_r. reflexivity.
  - unfold tariffStep at 2.
    destruct (tariffReported d ex dm t); rewrite IH; cbn [map fold_left].
    + rewrite <- app_assoc. reflexivity.
    + reflexivity.
Qed.

Lemma calculateTariffCost_breakdown (d : float) (ex : bool) (h i : float) :
  let dm := if ex then 1 - EXPORT_DISCOUNT_FACTOR else 1 in
  breakdown (calculateTariffCost d ex h i)
  = map (tariffItem d ex dm)
        (filter (tariffReported d ex dm) (DYNAMIC_TARIFFS h i)).
Proof.
  intros dm. unfold calculateTariffCost. fold dm.
  rewrite tariff_loop. reflexivity.
Qed.

Lemma calculateTariffCost_total (d : float) (ex : bool) (h i : float) :
  totalTariffCost (calculateTariffCost d ex h i)
  = JS.sum (map Item.cost (breakdown (calculateTariffCost d ex h i))).
Proof.
  unfold calculateTariffCost. rewrite tariff_loop.
  cbn [totalTariffCost breakdown app]. unfold JS.sum.
  rewrite map_map. f_equal. apply map_ext. intros t.
  symmetry. apply tariffItem_cost.
Qed.

(** What a run of the orchestrator that returns has computed. *)
Lemma calculateTotalCost_returns (inputs : Inputs) (l l' : list LogEntry)
      (r : Result.t) :
  calculateTotalCost inputs l = (inr r, l') ->
  calculateTransportCost
    (fst (optimizeRoute (distanceKm inputs) (numStops inputs)))
    (truckType inputs) (estimatedDays inputs) (driverCost inputs)
    (fuelPrice inputs) (truckRentalCost inputs) = inr (Result.transport r)
  /\ Result.tariffs r
     = calculateTariffCost (estimatedDays inputs) (isExport inputs)
                           (handlingCost inputs) (inspectionFee inputs)
  /\ Result.duty r
     = calculateCustomsDuty (cifValue inputs) (customsDutyRate inputs)
                            (isExport inputs)
  /\ Result.tax r
     = calculateTaxCost (totalTransportCost (Result.transport r))
                        (vatRate inputs) (whtRate inputs)
  /\ Result.totalOptimizedCost r
     = formatETB (totalTransportCost (Result.transport r)
                  + (totalTariffCost (Result.tariffs r)
                     + dutyCost (Result.duty r))
                  + totalTax (Result.tax r))
  /\ Result.optimization r
     = {| Optimization.originalDistance := distanceKm inputs;
          Optimization.actualDistance :=
            fst (optimizeRoute (distanceKm inputs) (numStops inputs));
          Optimization.notes :=
            snd (optimizeRoute (distanceKm inputs) (numStops inputs));
          Optimization.numStops := numStops inputs |}
  /\ Result.rates r = inputs
  /\ Result.isExport r = isExport inputs.
Proof.
  unfold calculateTotalCost, bind, log, lift, ret.
  destruct (optimizeRoute (distanceKm inputs) (numStops inputs))
    as [actual note].
  cbn [fst snd].
  destruct (JS.ge (numStops inputs) 3);
    (destruct (calculateTransportCost actual _ _ _ _ _) as [ e | t ];
     intros H; inversion H; subst; clear H; cbn;
     repeat split; reflexivity).
Qed.

(** The orchestrator fails exactly when the transport calculator does, and
    with the same exception. *)
Lemma calculateTotalCost_throws (inputs : Inputs) (l l' : list LogEntry)
      (e : exn) :
  calculateTotalCost inputs l = (inl e, l') ->
  calculateTransportCost
    (fst (optimizeRoute (distanceKm inputs) (numStops inputs)))
    (truckType inputs) (estimatedDays inputs) (driverCost inputs)
    (fuelPrice inputs) (truckRentalCost inputs) = inl e.
Proof.
  unfold calculateTotalCost, bind, log, lift, ret.
  destruct (optimizeRoute (distanceKm inputs) (numStops inputs))
    as [actual note].
  cbn [fst snd].
  destruct (JS.ge (numStops inputs) 3);
    (destruct (calculateTransportCost actual _ _ _ _ _) as [ e' | t ];
     intros H; inversion H; subst; reflexivity).
Qed.

Lemma calculateTransportCost_total_sum
      (dist : float) (tt : string) (days wage fuel rent : float)
      (t : TransportResult) :
  calculateTransportCost dist tt days wage fuel rent = inr t ->
  totalTransportCost t = fuelCostETB t + driverCostETB t + truckRentETB t.
Proof.
  unfold calculateTransportCost.
  destruct (read_fuel_efficiency_km_l _) as [ e | eff ]; intros H;
    inversion H; subst; reflexivity.
Qed.
(** The orchestrator returns whenever the transport calculator does. *)
Lemma calculateTotalCost_runs (inputs : Inputs) (l : list LogEntry)
      (t : TransportResult) :
  calculateTransportCost
    (fst (optimizeRoute (distanceKm inputs) (numStops inputs)))
    (truckType inputs) (estimatedDays inputs) (driverCost inputs)
    (fuelPrice inputs) (truckRentalCost inputs) = inr t ->
  exists r l', calculateTotalCost inputs l = (inr r, l').
Proof.
  unfold calculateTotalCost, bind, log, lift, ret.
  destruct (optimizeRoute (distanceKm inputs) (numStops inputs))
    as [actual note].
  cbn [fst snd]. intros Ht.
  destruct (JS.ge (numStops inputs) 3); rewrite Ht; eexists; eexists;
    reflexivity.
Qed.

(** A truck type found neither in the rate table nor in [Object.prototype]
    evaluates to [undefined], and reading its fuel efficiency throws. *)
Lemma calculateTransportCost_undefined
      (dist : float) (tt : string) (days wage fuel rent : float) :
  own_property tt TRUCK_PROFILES = None ->
  existsb (String.eqb tt) Object_prototype = false ->
  calculateTransportCost dist tt days wage fuel rent
  = inl (TypeError
           "Cannot read properties of undefined (reading 'fuel_efficiency_km_l')").
Proof.
  intros Hown Hproto. unfold calculateTransportCost, TRUCK_PROFILES_get.
  rewrite Hown, Hproto. reflexivity.
Qed.

(** The exception goes through the orchestrator unchanged and reaches the
    handler of [handleCalculation]; no result record is built. *)
Lemma unknown_truck_type_propagates (inputs : Inputs) (l : list LogEntry) :
  own_property (truckType inputs) TRUCK_PROFILES = None ->
  existsb (String.eqb (truckType inputs)) Object_prototype = false ->
  exists l',
    calculateTotalCost inputs l
    = (inl (TypeError
              "Cannot read properties of undefined (reading 'fuel_efficiency_km_l')"),
       l')
    /\ (invalidInputs inputs = false ->
        exists l'',
          handleCalculation inputs l
          = (inr (CriticalError
                    "Cannot read properties of undefined (reading 'fuel_efficiency_km_l')"),
             l'')).
Proof.
  intros Hown Hproto.
  unfold handleCalculation, try_catch, clearLogs.
  unfold calculateTotalCost, bind, log, lift, ret.
  destruct (optimizeRoute (distanceKm inputs) (numStops inputs))
    as [actual note].
  rewrite !(calculateTransportCost_undefined _ _ _ _ _ _ Hown Hproto).
  destruct (JS.ge (numStops inputs) 3); eexists;
    (split; [ reflexivity | intros ->; eexists; reflexivity ]).
Qed.

End Loop.

Section Claims.
Context {host : Host}.

(** C1.  Additive consistency.  On every input record on which the engine
    returns, the transport total is the sum of the fuel, driver and rental
    costs it reports, the tax total is VAT plus WHT, the tariff total is the
    sum, accumulated from [0] in order, of the costs of the breakdown list,
    and the total that is formatted for display is transport subtotal +
    (tariff total + duty cost) + total tax, on the full-precision values:
    nothing is rounded before [formatETB]. *)
Theorem C1_additive_consistency
        (inputs : Inputs) (l l' : list LogEntry) (r : Result.t) :
  calculateTotalCost inputs l = (inr r, l') ->
  totalTransportCost (Result.transport r)
  = fuelCostETB (Result.transport r) + driverCostETB (Result.transport r)
    + truckRentETB (Result.transport r)
  /\ totalTax (Result.tax r)
     = vatCost (Result.tax r) + whtCost (Result.tax r)
  /\ totalTariffCost (Result.tariffs r)
     = JS.sum (map Item.cost (breakdown (Result.tariffs r)))
  /\ Result.totalOptimizedCost r
     = formatETB (totalTransportCost (Result.transport r)
                  + (totalTariffCost (Result.tariffs r)
                     + dutyCost (Result.duty r))
                  + totalTax (Result.tax r)).
Proof.
  intros H. apply calculateTotalCost_returns in H.
  destruct H as (Ht & Hf & _ & Hx & Hc & _).
  repeat split.
  - exact (calculateTransportCost_total_sum _ _ _ _ _ _ _ Ht).
  - rewrite Hx. reflexivity.
  - rewrite Hf. apply calculateTariffCost_total.
  - exact Hc.
Qed.
(** C2, as amended.  End-to-end example.  For distanceKm=500,
    truckType='40FT_DRY_VAN', estimatedDays=10, driverCost=1000,
    fuelPrice=50, truckRentalCost=2000, numStops=1, isExport=false,
    cifValue=100000, customsDutyRate=10, vatRate=15, whtRate=2,
    handlingCost=1500, inspectionFee=500 the engine returns, with adjusted
    distance 500, fuel cost 8,992.81 to two decimals, driver cost 10000,
    rental cost 20000, transport subtotal 38,992.81, tariff total 2384
    (handling 1500, inspection 500, storage penalty 384), duty 10000, tariff
    subtotal 12384, VAT 5,848.92, WHT 779.86, total tax 6,628.78, and the
    grand total displayed as 58,005.58. *)
Theorem C2_end_to_end (l : list LogEntry) :
  exists r l',
    calculateTotalCost example_inputs l = (inr r, l')
    /\ Optimization.actualDistance (Result.optimization r) = 500
    /\ formatETB (fuelCostETB (Result.transport r)) = "8,992.81"
    /\ driverCostETB (Result.transport r) = 10000
    /\ truckRentETB (Result.transport r) = 20000
    /\ formatETB (totalTransportCost (Result.transport r)) = "38,992.81"
    /\ totalTariffCost (Result.tariffs r) = 2384
    /\ map (fun item => (Item.name item, Item.cost item))
           (breakdown (Result.tariffs r))
       = [ ("Dry Port Handling", 1500); ("Customs Inspection Fee", 500);
           ("Storage Penalty", 384) ]
    /\ dutyCost (Result.duty r) = 10000
    /\ totalTariffCost (Result.tariffs r) + dutyCost (Result.duty r) = 12384
    /\ formatETB (vatCost (Result.tax r)) = "5,848.92"
    /\ formatETB (whtCost (Result.tax r)) = "779.86"
    /\ formatETB (totalTax (Result.tax r)) = "6,628.78"
    /\ Result.totalOptimizedCost r = "58,005.58".
Proof.
  eexists. eexists. split.
  - vm_compute. reflexivity.
  - vm_compute. repeat split.
Qed.

(** C3.  Route optimization.  On every input on which the engine returns,
    the adjusted distance is the original distance when numStops < 3 and the
    original distance times 0.90 when numStops >= 3, and it is the distance
    the transport calculator is given. *)
Theorem C3_route_optimization
        (inputs : Inputs) (l l' : list LogEntry) (r : Result.t) :
  calculateTotalCost inputs l = (inr r, l') ->
  (JS.lt (numStops inputs) 3 = true ->
   Optimization.actualDistance (Result.optimization r) = distanceKm inputs)
  /\ (JS.ge (numStops inputs) 3 = true ->
      Optimization.actualDistance (Result.optimization r)
      = distanceKm inputs * 0.90)
  /\ calculateTransportCost
       (Optimization.actualDistance (Result.optimization r))
       (truckType inputs) (estimatedDays inputs) (driverCost inputs)
       (fuelPrice inputs) (truckRentalCost inputs)
     = inr (Result.transport r).
Proof.
  intros H. apply calculateTotalCost_returns in H.
  destruct H as (Ht & _ & _ & _ & _ & Ho & _).
  rewrite Ho. cbn [Optimization.actualDistance].
  repeat split; try exact Ht; unfold optimizeRoute; intros Hn.
  - apply FloatFacts.ltb_leb_false in Hn. unfold JS.ge. rewrite Hn. reflexivity.
  - rewrite Hn. reflexivity.
Qed.

(** The storage rule, the third entry of the table. *)
Lemma storage_rule_cost (d : float) (h i : float) (t : Tariff.t) :
  nth_error (DYNAMIC_TARIFFS h i) 2 = Some t ->
  tariffCost d t
  = if JS.gt d 8
    then ((d - 8) * 192.00,
          "Penalty applied for " ++ NumberToString (d - 8)
          ++ " days over the " ++ NumberToString 8 ++ "-day free period.")
    else (0, "No penalty: Trip completed within the free period.").
Proof.
  intros E. cbn in E. inversion E; subst t; clear E.
  unfold tariffCost.
  cbn [Tariff.unit Tariff.free_days Tariff.rate_birr JS.ToNumber interpolate].
  unfold JS.gt at 1. rewrite FloatFacts.Math_max_0_gt, FloatFacts.sub_pos.
  unfold JS.gt. destruct (8 <? d) eqn:L; [ | reflexivity ].
  rewrite FloatFacts.Math_max_0_pos; [ reflexivity | ].
  rewrite FloatFacts.sub_pos. exact L.
Qed.

(** C4.  Storage penalty.  On every input on which the engine returns, the
    last entry of the breakdown is the storage penalty; it is there whatever
    its cost, because the rule's rate 192.00 is positive.  Its cost is 0,
    with the no-penalty note, when estimatedDays <= 8, and
    (estimatedDays - 8) * 192.00 when estimatedDays > 8, so 384 for 10 days;
    the days are those of the input record. *)
Theorem C4_storage_penalty
        (inputs : Inputs) (l l' : list LogEntry) (r : Result.t) :
  calculateTotalCost inputs l = (inr r, l') ->
  exists (before : list Item.t) (item : Item.t),
    breakdown (Result.tariffs r) = (before ++ [ item ])%list
    /\ Item.name item = "Storage Penalty"
    /\ (JS.le (estimatedDays inputs) 8 = true ->
        Item.cost item = 0
        /\ Item.notes item = "No penalty: Trip completed within the free period.")
    /\ (JS.gt (estimatedDays inputs) 8 = true ->
        Item.cost item = (estimatedDays inputs - 8) * 192.00)
    /\ (estimatedDays inputs = 10 -> Item.cost item = 384.00).
Proof.
  intros H. apply calculateTotalCost_returns in H.
  destruct H as (_ & Hf & _). rewrite Hf. clear Hf.
  set (d := estimatedDays inputs). set (ex := isExport inputs).
  set (h := handlingCost inputs). set (i := inspectionFee inputs).
  rewrite calculateTariffCost_breakdown.
  set (dm := if ex then 1 - EXPORT_DISCOUNT_FACTOR else 1).
  destruct (nth_error (DYNAMIC_TARIFFS h i) 2) as [ t | ] eqn:Et;
    [ | discriminate Et ].
  pose proof (storage_rule_cost d h i t Et) as Hc.
  assert (Hfinal : tariffFinal d ex dm t = tariffCost d t).
  { cbn in Et. inversion Et; subst t. unfold tariffFinal.
    destruct (tariffCost d _) as [c n].
    cbn [Tariff.is_export_eligible]. rewrite andb_false_r. reflexivity. }
  assert (Hrep : tariffReported d ex dm t = true).
  { cbn in Et. inversion Et; subst t. unfold tariffReported.
    cbn [Tariff.rate_birr]. apply orb_true_r. }
  assert (Hsplit : DYNAMIC_TARIFFS h i
                   = (firstn 2 (DYNAMIC_TARIFFS h i) ++ [ t ])%list).
  { cbn in Et. inversion Et; subst t. reflexivity. }
  rewrite Hsplit, filter_app, map_app. cbn [filter]. rewrite Hrep. cbn [map].
  eexists. exists (tariffItem d ex dm t). split; [ reflexivity | ].
  rewrite tariffItem_name, tariffItem_cost, tariffItem_notes, Hfinal, Hc.
  split.
  { cbn in Et. inversion Et; subst t. reflexivity. }
  split; [ | split ].
  - intros Hle. apply FloatFacts.leb_ltb_false in Hle.
    unfold JS.gt. rewrite Hle. split; reflexivity.
  - intros Hgt. rewrite Hgt. reflexivity.
  - intros ->. reflexivity.
Qed.

Lemma handling_rule_reported (d : float) (ex : bool) (h : float) (name : string) :
  tariffReported d ex (if ex then 1 - EXPORT_DISCOUNT_FACTOR else 1)
                 {| Tariff.name := name;
                    Tariff.rate_birr := h;
                    Tariff.unit := per_container;
                    Tariff.free_days := None;
                    Tariff.is_export_eligible := true |}
  = JS.gt h 0.
Proof.
  unfold tariffReported, tariffFinal, tariffCost.
  cbn [Tariff.unit Tariff.rate_birr Tariff.is_export_eligible fst].
  destruct ex; cbn [andb fst]; [ | apply orb_diag ].
  unfold JS.gt. destruct (0 <? h) eqn:Hh; [ apply orb_true_r | ].
  rewrite orb_false_r. apply not_true_is_false. intros Hp.
  eapply SignFacts.mul_pos_inv in Hp; [ congruence | vm_compute; reflexivity ].
Qed.

Lemma inspection_rule_reported (d : float) (ex : bool) (dm i : float)
      (name : string) :
  tariffReported d ex dm
                 {| Tariff.name := name;
                    Tariff.rate_birr := i;
                    Tariff.unit := per_shipment;
                    Tariff.free_days := None;
                    Tariff.is_export_eligible := false |}
  = JS.gt i 0.
Proof.
  unfold tariffReported, tariffFinal, tariffCost.
  cbn [Tariff.unit Tariff.rate_birr Tariff.is_export_eligible fst].
  rewrite andb_false_r. apply orb_diag.
Qed.

(** The storage rule is never discounted and always reported. *)
Lemma storage_rule_final (d : float) (ex : bool) (dm : float) (h i : float)
      (t : Tariff.t) :
  nth_error (DYNAMIC_TARIFFS h i) 2 = Some t ->
  tariffReported d ex dm t = true
  /\ Item.name (tariffItem d ex dm t) = "Storage Penalty"
  /\ Item.cost (tariffItem d ex dm t)
     = (if JS.gt d 8 then (d - 8) * 192.00 else 0).
Proof.
  intros Et. pose proof (storage_rule_cost d h i t Et) as Hc.
  cbn in Et. inversion Et; subst t; clear Et.
  assert (Hfinal : forall t, Tariff.is_export_eligible t = false ->
                             tariffFinal d ex dm t = tariffCost d t).
  { intros t Ht. unfold tariffFinal. destruct (tariffCost d t) as [c n].
    rewrite Ht, andb_false_r. reflexivity. }
  split; [ | split ].
  - unfold tariffReported. cbn [Tariff.rate_birr]. apply orb_true_r.
  - rewrite tariffItem_name. reflexivity.
  - rewrite tariffItem_cost, Hfinal, Hc by reflexivity.
    destruct (JS.gt d 8); reflexivity.
Qed.

(** The entries of the breakdown, by name and cost. *)
Lemma breakdown_entries (d : float) (ex : bool) (h i : float) :
  map (fun item => (Item.name item, Item.cost item))
      (breakdown (calculateTariffCost d ex h i))
  = ((if JS.gt h 0
      then [ ("Dry Port Handling", if ex then h * 0.40 else h) ] else [])
     ++ (if JS.gt i 0 then [ ("Customs Inspection Fee", i) ] else [])
     ++ [ ("Storage Penalty", if JS.gt d 8 then (d - 8) * 192.00 else 0) ])%list.
Proof.
  rewrite calculateTariffCost_breakdown. cbn zeta.
  destruct (storage_rule_final
              d ex (if ex then 1 - EXPORT_DISCOUNT_FACTOR else 1) h i _ eq_refl)
    as (Hrep & Hname & Hcost).
  unfold DYNAMIC_TARIFFS. cbn [filter].
  rewrite handling_rule_reported, inspection_rule_reported, Hrep.
  destruct (JS.gt h 0), (JS.gt i 0); cbn [map app];
    rewrite Hname, Hcost, ?tariffItem_name, ?tariffItem_cost;
    destruct ex; reflexivity.
Qed.

(** C5.  Export discount.  Of the three rules only the per-container
    handling fee is export-eligible.  With isExport=true the calculator
    lists the handling fee, when there is one, at its base cost times 0.40,
    exactly and hence within 1e-9 whenever that product is finite, and lists
    the inspection fee and the storage penalty at their base costs; with
    isExport=false it lists every rule at its base cost.  The base cost of
    a rule is what the loop computes before the discount, and the cost
    listed is the final cost. *)
Theorem C5_export_discount (d h i : float) :
  map Tariff.is_export_eligible (DYNAMIC_TARIFFS h i) = [ true; false; false ]
  /\ map Tariff.unit (DYNAMIC_TARIFFS h i)
     = [ per_container; per_shipment; per_day_after_free_period ]
  /\ map (fun t => fst (tariffCost d t)) (DYNAMIC_TARIFFS h i)
     = [ h; i; if JS.gt d 8 then (d - 8) * 192.00 else 0 ]
  /\ map (fun item => (Item.name item, Item.cost item))
         (breakdown (calculateTariffCost d true h i))
     = ((if JS.gt h 0 then [ ("Dry Port Handling", h * 0.40) ] else [])
        ++ (if JS.gt i 0 then [ ("Customs Inspection Fee", i) ] else [])
        ++ [ ("Storage Penalty",
              if JS.gt d 8 then (d - 8) * 192.00 else 0) ])%list
  /\ map (fun item => (Item.name item, Item.cost item))
         (breakdown (calculateTariffCost d false h i))
     = ((if JS.gt h 0 then [ ("Dry Port Handling", h) ] else [])
        ++ (if JS.gt i 0 then [ ("Customs Inspection Fee", i) ] else [])
        ++ [ ("Storage Penalty",
              if JS.gt d 8 then (d - 8) * 192.00 else 0) ])%list
  /\ (JS.gt h 0 = true ->
      is_finite (h * 0.40) = true ->
      exists (item : Item.t) (rest : list Item.t),
        breakdown (calculateTariffCost d true h i) = item :: rest
        /\ Item.name item = "Dry Port Handling"
        /\ (abs (Item.cost item - h * 0.40) <=? 1e-9) = true)
  /\ (forall t : Tariff.t,
         In t (DYNAMIC_TARIFFS h i) ->
         fst (tariffFinal d true (1 - EXPORT_DISCOUNT_FACTOR) t)
         = (if Tariff.is_export_eligible t
            then fst (tariffCost d t) * 0.40
            else fst (tariffCost d t))
         /\ (Tariff.is_export_eligible t = true ->
             is_finite (fst (tariffCost d t) * 0.40) = true ->
             (abs (fst (tariffFinal d true (1 - EXPORT_DISCOUNT_FACTOR) t)
                   - fst (tariffCost d t) * 0.40) <=? 1e-9) = true)
         /\ fst (tariffFinal d false 1 t) = fst (tariffCost d t))
  /\ map Item.cost (breakdown (calculateTariffCost d true h i))
     = map (fun t => fst (tariffFinal d true (1 - EXPORT_DISCOUNT_FACTOR) t))
           (filter (tariffReported d true (1 - EXPORT_DISCOUNT_FACTOR))
                   (DYNAMIC_TARIFFS h i))
  /\ map Item.cost (breakdown (calculateTariffCost d false h i))
     = map (fun t => fst (tariffCost d t))
           (filter (tariffReported d false 1) (DYNAMIC_TARIFFS h i)).
Proof.
  assert (Hexport : forall t,
             fst (tariffFinal d true (1 - EXPORT_DISCOUNT_FACTOR) t)
             = (if Tariff.is_export_eligible t
                then fst (tariffCost d t) * 0.40
                else fst (tariffCost d t))).
  { intros t. unfold tariffFinal. destruct (tariffCost d t) as [c n].
    cbn [andb fst]. destruct (Tariff.is_export_eligible t); reflexivity. }
  assert (Himport : forall t, fst (tariffFinal d false 1 t) = fst (tariffCost d t)).
  { intros t. unfold tariffFinal. destruct (tariffCost d t) as [c n].
    reflexivity. }
  pose proof (breakdown_entries d true h i) as Htrue.
  pose proof (breakdown_entries d false h i) as Hfalse.
  split; [ reflexivity | ]. split; [ reflexivity | ].
  split; [ | split; [ exact Htrue | split; [ exact Hfalse | ] ] ].
  - unfold DYNAMIC_TARIFFS. cbn [map].
    rewrite (storage_rule_cost d h i _ eq_refl).
    destruct (JS.gt d 8); reflexivity.
  - split; [ | split; [ | split ] ].
    + intros Hh Fin. rewrite Hh in Htrue. cbn [app] in Htrue.
      destruct (breakdown (calculateTariffCost d true h i)) as [ | item rest ];
        [ discriminate Htrue | ].
      cbn [map] in Htrue. injection Htrue as Hname Hcost _.
      exists item, rest. split; [ reflexivity | ]. split; [ exact Hname | ].
      rewrite Hcost, FloatFacts.sub_diag_finite by exact Fin. reflexivity.
    + intros t _. split; [ apply Hexport | ]. split; [ | apply Himport ].
      intros El Fin. rewrite Hexport, El.
      rewrite FloatFacts.sub_diag_finite by exact Fin. reflexivity.
    + rewrite (calculateTariffCost_breakdown d true h i). cbn zeta.
      rewrite map_map. apply map_ext. intros t. apply tariffItem_cost.
    + rewrite (calculateTariffCost_breakdown d false h i). cbn zeta.
      rewrite map_map. apply map_ext. intros t.
      rewrite tariffItem_cost. apply Himport.
Qed.

(** C6.  Transport cost calculator.  For a truck type of the rate table the
    calculator returns, with billable days max(1, estimatedDays), fuel
    consumed = distance / the profile's fuel efficiency, fuel cost =
    consumed * fuel price, driver cost = billable days * daily wage, rental
    cost = billable days * daily rental rate, and their sum as the total.
    The billable days are estimatedDays itself when it is at least 1, and 1
    when it is below 1; so when estimatedDays <= 0 they are 1, and the
    result is the one for estimatedDays = 1.  A number of days that is NaN
    gives NaN billable days. *)
Theorem C6_transport_cost
        (truckType : string) (profile : TruckProfile)
        (distanceKm estimatedDays driverDailyWage fuelPrice truckRentalCost : float) :
  In (truckType, profile) TRUCK_PROFILES ->
  exists daysToCharge : float,
    calculateTransportCost distanceKm truckType estimatedDays driverDailyWage
                           fuelPrice truckRentalCost
    = inr {| fuelCostETB :=
               distanceKm / fuel_efficiency_km_l profile * fuelPrice;
             driverCostETB := daysToCharge * driverDailyWage;
             truckRentETB := daysToCharge * truckRentalCost;
             totalTransportCost :=
               distanceKm / fuel_efficiency_km_l profile * fuelPrice
               + daysToCharge * driverDailyWage
               + daysToCharge * truckRentalCost;
             totalLitersUsed := distanceKm / fuel_efficiency_km_l profile |}
    /\ daysToCharge = JS.Math_max 1 estimatedDays
    /\ (JS.ge estimatedDays 1 = true -> daysToCharge = estimatedDays)
    /\ (JS.lt estimatedDays 1 = true -> daysToCharge = 1)
    /\ (is_nan estimatedDays = true -> is_nan daysToCharge = true)
    /\ (JS.le estimatedDays 0 = true ->
        daysToCharge = 1
        /\ calculateTransportCost distanceKm truckType estimatedDays
                                  driverDailyWage fuelPrice truckRentalCost
           = calculateTransportCost distanceKm truckType 1
                                    driverDailyWage fuelPrice truckRentalCost).
Proof.
  intros Hin.
  assert (Hget : TRUCK_PROFILES_get truckType = Profile profile).
  { destruct Hin as [ E | [ E | [ E | [] ] ] ]; inversion E; subst; reflexivity. }
  exists (JS.Math_max 1 estimatedDays).
  unfold calculateTransportCost. rewrite Hget.
  cbn [read_fuel_efficiency_km_l JS.ToNumber].
  split; [ reflexivity | ]. split; [ reflexivity | ].
  split; [ exact (SignFacts.Math_max_1_ge estimatedDays) | ].
  split; [ exact (SignFacts.Math_max_1_lt estimatedDays) | ].
  split.
  - intros N. unfold JS.Math_max. rewrite N, orb_true_r. reflexivity.
  - intros Hle. apply FloatFacts.Math_max_1_nonpos in Hle.
    split; [ exact Hle | ]. rewrite Hle. reflexivity.
Qed.

(** C7.  Customs duty.  If isExport is true or customsDutyRate <= 0, the
    duty is 0 and the note is the fixed import-only text; otherwise, that is
    for an import at a rate above 0, the duty is cifValue *
    (customsDutyRate / 100) and the note carries the formatted CIF value and
    the rate.  A rate that is a number is either <= 0 or above 0, so the two
    cases are all there is. *)
Theorem C7_customs_duty (cifValue customsDutyRate : float) (isExport : bool) :
  (isExport = true \/ JS.le customsDutyRate 0 = true ->
   calculateCustomsDuty cifValue customsDutyRate isExport
   = {| dutyCost := 0;
        dutyNotes := "Customs Duty applies only to Import/Local cargo." |})
  /\ (isExport = false -> JS.gt customsDutyRate 0 = true ->
      calculateCustomsDuty cifValue customsDutyRate isExport
      = {| dutyCost := cifValue * (customsDutyRate / 100);
           dutyNotes := "Calculated on CIF Value (" ++ formatETB cifValue
                        ++ " ETB) at " ++ NumberToString customsDutyRate
                        ++ "%." |})
  /\ (is_nan customsDutyRate = false ->
      JS.le customsDutyRate 0 = false -> JS.gt customsDutyRate 0 = true).
Proof.
  unfold calculateCustomsDuty, JS.gt, JS.le. split; [ | split ].
  - intros [ -> | Hle ]; [ reflexivity | ].
    apply FloatFacts.leb_ltb_false in Hle. rewrite Hle, andb_false_r.
    reflexivity.
  - intros -> Hgt. rewrite Hgt. reflexivity.
  - intros Hnan Hle.
    exact (FloatFacts.not_leb_ltb customsDutyRate 0 Hnan eq_refl Hle).
Qed.

(** C8.  Tax-base noninterference.  Let two input records agree on
    distanceKm, truckType, estimatedDays, numStops, driverCost, fuelPrice,
    truckRentalCost, vatRate and whtRate, and differ at will in cifValue,
    customsDutyRate, handlingCost, inspectionFee and isExport.  If the
    engine returns on the first it returns on the second, with the same VAT
    and WHT amounts, which are the transport subtotal times vatRate / 100
    and times whtRate / 100. *)
Theorem C8_tax_base_noninterference
        (i1 i2 : Inputs) (l1 l1' l2 : list LogEntry) (r1 : Result.t) :
  distanceKm i1 = distanceKm i2 ->
  truckType i1 = truckType i2 ->
  estimatedDays i1 = estimatedDays i2 ->
  numStops i1 = numStops i2 ->
  driverCost i1 = driverCost i2 ->
  fuelPrice i1 = fuelPrice i2 ->
  truckRentalCost i1 = truckRentalCost i2 ->
  vatRate i1 = vatRate i2 ->
  whtRate i1 = whtRate i2 ->
  calculateTotalCost i1 l1 = (inr r1, l1') ->
  exists r2 l2',
    calculateTotalCost i2 l2 = (inr r2, l2')
    /\ vatCost (Result.tax r2) = vatCost (Result.tax r1)
    /\ whtCost (Result.tax r2) = whtCost (Result.tax r1)
    /\ vatCost (Result.tax r1)
       = totalTransportCost (Result.transport r1) * (vatRate i1 / 100)
    /\ whtCost (Result.tax r1)
       = totalTransportCost (Result.transport r1) * (whtRate i1 / 100).
Proof.
  intros Hd Ht He Hn Hw Hf Hr Hv Hh H1.
  apply calculateTotalCost_returns in H1.
  destruct H1 as (Ht1 & _ & _ & Hx1 & _).
  rewrite Hd, Ht, He, Hn, Hw, Hf, Hr in Ht1.
  destruct (calculateTotalCost_runs i2 l2 _ Ht1) as (r2 & l2' & H2).
  exists r2, l2'. split; [ exact H2 | ].
  apply calculateTotalCost_returns in H2.
  destruct H2 as (Ht2 & _ & _ & Hx2 & _).
  assert (Hsame : Result.transport r2 = Result.transport r1) by congruence.
  rewrite Hx2, Hx1, Hsame, Hv, Hh. repeat split; reflexivity.
Qed.

(** C9, on the failing input.  The truck type ['constructor'] has no profile
    in the rate table, and the lookup finds the function every object
    inherits under that name.  The transport calculator then does not fail:
    it returns NaN for the litres, the fuel cost and the total, the
    orchestrator returns a result whose displayed total is 0.00, and
    [handleCalculation] goes on to the report instead of its handler. *)
Theorem C9_inherited_key_returns_NaN (l : list LogEntry) :
  own_property "constructor" TRUCK_PROFILES = None
  /\ invalidInputs inherited_key_inputs = false
  /\ calculateTransportCost 500 "constructor" 10 1000 50 2000
     = inr {| fuelCostETB := nan;
              driverCostETB := 10000;
              truckRentETB := 20000;
              totalTransportCost := nan;
              totalLitersUsed := nan |}
  /\ exists r l' l'',
      calculateTotalCost inherited_key_inputs l = (inr r, l')
      /\ is_nan (totalTransportCost (Result.transport r)) = true
      /\ is_nan (totalTax (Result.tax r)) = true
      /\ Result.totalOptimizedCost r = "0.00"
      /\ handleCalculation inherited_key_inputs l = (inr (Report r), l'').
Proof.
  split; [ reflexivity | ]. split; [ reflexivity | ]. split; [ reflexivity | ].
  eexists. eexists. eexists. split.
  - vm_compute. reflexivity.
  - split; [ reflexivity | ]. split; [ reflexivity | ].
    split; [ reflexivity | ]. vm_compute. reflexivity.
Qed.

(** C10.  The total is a string.  On every input on which the engine
    returns, totalOptimizedCost is a string, not a number: it is [formatETB]
    of the sum of the numbers the sub-results hold, transport total +
    (tariff total + duty cost) + total tax, which is how the full-precision
    total can be had again.  For a total that is finite and below 10^21 in
    magnitude the string is the nearest number of hundredths, written as a
    sign, the digits before the last two grouped by threes with commas, a
    point and the last two digits, and zero is 0.00.  Otherwise it is not
    such a string: for a total that is NaN it is 0.00, for an infinite one
    it is Infinity or -Infinity, and for one of magnitude 10^21 or more it is
    what [Number::toString] gives, through the separator pattern. *)
Theorem C10_total_is_formatted_string
        (inputs : Inputs) (l l' : list LogEntry) (r : Result.t) :
  calculateTotalCost inputs l = (inr r, l') ->
  Result.totalOptimizedCost r
  = formatETB (totalTransportCost (Result.transport r)
               + (totalTariffCost (Result.tariffs r) + dutyCost (Result.duty r))
               + totalTax (Result.tax r))
  /\ (is_nan (totalTransportCost (Result.transport r)
              + (totalTariffCost (Result.tariffs r) + dutyCost (Result.duty r))
              + totalTax (Result.tax r)) = true ->
      Result.totalOptimizedCost r = "0.00")
  /\ (forall (s : bool) (m : positive) (e : Z),
         Prim2SF (totalTransportCost (Result.transport r)
                  + (totalTariffCost (Result.tariffs r)
                     + dutyCost (Result.duty r))
                  + totalTax (Result.tax r)) = S754_finite s m e ->
         (1e21 <=? abs (totalTransportCost (Result.transport r)
                        + (totalTariffCost (Result.tariffs r)
                           + dutyCost (Result.duty r))
                        + totalTax (Result.tax r))) = false ->
         exists (n : Z) (int frac : string),
           Text.nearest_integer n m e 2
           /\ Text.fixed_digits n 2 = int ++ "." ++ frac
           /\ Text.all_digits int = true /\ int <> ""
           /\ Text.all_digits frac = true /\ String.length frac = 2%nat
           /\ Result.totalOptimizedCost r
              = (if s then "-" else "") ++ Text.group_thousands int
                ++ "." ++ frac)
  /\ (forall s : bool,
         Prim2SF (totalTransportCost (Result.transport r)
                  + (totalTariffCost (Result.tariffs r)
                     + dutyCost (Result.duty r))
                  + totalTax (Result.tax r)) = S754_zero s ->
         Result.totalOptimizedCost r = "0.00")
  /\ (forall s : bool,
         Prim2SF (totalTransportCost (Result.transport r)
                  + (totalTariffCost (Result.tariffs r)
                     + dutyCost (Result.duty r))
                  + totalTax (Result.tax r)) = S754_infinity s ->
         Result.totalOptimizedCost r = (if s then "-Infinity" else "Infinity")
         /\ ~ Text.two_decimal_display (Result.totalOptimizedCost r))
  /\ (forall (s : bool) (m : positive) (e : Z),
         Prim2SF (totalTransportCost (Result.transport r)
                  + (totalTariffCost (Result.tariffs r)
                     + dutyCost (Result.duty r))
                  + totalTax (Result.tax r)) = S754_finite s m e ->
         (1e21 <=? abs (totalTransportCost (Result.transport r)
                        + (totalTariffCost (Result.tariffs r)
                           + dutyCost (Result.duty r))
                        + totalTax (Result.tax r))) = true ->
         Result.totalOptimizedCost r
         = Text.insert_commas
             false
             ((if s then "-" else "")
              ++ NumberToString
                   (abs (totalTransportCost (Result.transport r)
                         + (totalTariffCost (Result.tariffs r)
                            + dutyCost (Result.duty r))
                         + totalTax (Result.tax r))))).
Proof.
  intros H. apply calculateTotalCost_returns in H.
  destruct H as (_ & _ & _ & _ & Hc & _).
  set (g := totalTransportCost (Result.transport r)
            + (totalTariffCost (Result.tariffs r) + dutyCost (Result.duty r))
            + totalTax (Result.tax r)) in *.
  assert (Hnan : forall f, Prim2SF g = f -> f <> S754_nan -> is_nan g = false).
  { intros f Hf Hn. apply not_true_is_false. intros N.
    apply FloatFacts.is_nan_Prim2SF in N. congruence. }
  split; [ exact Hc | ]. rewrite Hc.
  split; [ | split; [ | split; [ | split ] ] ].
  - unfold formatETB. intros ->. reflexivity.
  - intros s m e Hg Hsmall. exact (TextFacts.formatETB_finite g s m e Hg Hsmall).
  - intros s Hg. unfold formatETB, toFixed.
    rewrite (Hnan _ Hg) by discriminate. rewrite Hg. reflexivity.
  - intros s Hg.
    assert (E : formatETB g = (if s then "-Infinity" else "Infinity")).
    { unfold formatETB, toFixed, NumberToString.
      rewrite (Hnan _ Hg) by discriminate. rewrite Hg.
      destruct s; reflexivity. }
    rewrite E. split; [ reflexivity | ].
    destruct s; apply TextFacts.two_decimal_display_point; reflexivity.
  - intros s m e Hg Hlarge. unfold formatETB, toFixed.
    rewrite (Hnan _ Hg) by discriminate. rewrite Hg, Hlarge. reflexivity.
Qed.
End Claims.

(** Settles a goal that holds by running the engine. *)
Ltac by_evaluation := vm_compute; reflexivity.

(** C1 at the shipment of the end-to-end example. *)
Lemma C1_witness :
  exists r l',
    calculateTotalCost (host := integer_host) example_inputs [] = (inr r, l')
    /\ totalTransportCost (Result.transport r)
       = fuelCostETB (Result.transport r) + driverCostETB (Result.transport r)
         + truckRentETB (Result.transport r)
    /\ totalTax (Result.tax r)
       = vatCost (Result.tax r) + whtCost (Result.tax r)
    /\ totalTariffCost (Result.tariffs r)
       = JS.sum (map Item.cost (breakdown (Result.tariffs r)))
    /\ Result.totalOptimizedCost r
       = formatETB (host := integer_host)
                   (totalTransportCost (Result.transport r)
                    + (totalTariffCost (Result.tariffs r)
                       + dutyCost (Result.duty r))
                    + totalTax (Result.tax r)).
Proof.
  eexists. eexists. split.
  - by_evaluation.
  - eapply (C1_additive_consistency (host := integer_host) example_inputs []).
    by_evaluation.
Defined.

(** C2 as the specification words it fails: the total displayed for the
    example is 58,005.58 and not 57,005.59. *)
Lemma C2_counterexample :
  ~ (exists r l',
        calculateTotalCost (host := integer_host) example_inputs [] = (inr r, l')
        /\ Result.totalOptimizedCost r = "57,005.59").
Proof.
  intros (r & l' & E & T). vm_compute in E.
  inversion E; subst. vm_compute in T. discriminate T.
Qed.

(** C3 at a shipment with four stops and at the example, which has one. *)
Lemma C3_witness :
  (exists r l',
      calculateTotalCost (host := integer_host) multi_stop_inputs []
      = (inr r, l')
      /\ Optimization.actualDistance (Result.optimization r) = 500 * 0.90)
  /\ (exists r l',
         calculateTotalCost (host := integer_host) example_inputs []
         = (inr r, l')
         /\ Optimization.actualDistance (Result.optimization r) = 500).
Proof.
  split; eexists; eexists; (split; [ by_evaluation | ]).
  - refine (proj1 (proj2 (C3_route_optimization
                            (host := integer_host) multi_stop_inputs [] _ _ _))
                  _);
      by_evaluation.
  - refine (proj1 (C3_route_optimization
                     (host := integer_host) example_inputs [] _ _ _) _);
      by_evaluation.
Defined.

(** C4 at the shipment of the example, which takes ten days. *)
Lemma C4_witness :
  exists r l',
    calculateTotalCost (host := integer_host) example_inputs [] = (inr r, l')
    /\ exists before item,
      breakdown (Result.tariffs r) = (before ++ [ item ])%list
      /\ Item.name item = "Storage Penalty"
      /\ Item.cost item = (10 - 8) * 192.00
      /\ Item.cost item = 384.00.
Proof.
  eexists. eexists. split; [ by_evaluation | ].
  destruct (C4_storage_penalty (host := integer_host) example_inputs [] _ _
                               ltac:(by_evaluation))
    as (before & item & Hb & Hn & _ & Hgt & Hten).
  exists before, item.
  repeat split; [ exact Hb | exact Hn | apply Hgt | apply Hten ]; reflexivity.
Defined.

(** C5 at an export of eleven days: the breakdown the calculator returns
    lists the handling fee at 0.40 of its rate and the other two rules in
    full, and the import lists all three in full. *)
Lemma C5_witness :
  map (fun item => (Item.name item, Item.cost item))
      (breakdown (calculateTariffCost (host := integer_host) 11 true 1500 500))
  = [ ("Dry Port Handling", 600); ("Customs Inspection Fee", 500);
      ("Storage Penalty", 576) ]
  /\ map (fun item => (Item.name item, Item.cost item))
         (breakdown (calculateTariffCost (host := integer_host) 11 false 1500 500))
     = [ ("Dry Port Handling", 1500); ("Customs Inspection Fee", 500);
         ("Storage Penalty", 576) ]
  /\ JS.gt 1500 0 = true
  /\ is_finite (1500 * 0.40) = true
  /\ exists (item : Item.t) (rest : list Item.t),
      breakdown (calculateTariffCost (host := integer_host) 11 true 1500 500)
      = item :: rest
      /\ Item.name item = "Dry Port Handling"
      /\ (abs (Item.cost item - 1500 * 0.40) <=? 1e-9) = true.
Proof.
  destruct (C5_export_discount (host := integer_host) 11 1500 500)
    as (_ & _ & _ & Hexport & Himport & Htol & _).
  split; [ rewrite Hexport; reflexivity | ].
  split; [ rewrite Himport; reflexivity | ].
  split; [ reflexivity | ]. split; [ reflexivity | ].
  apply Htol; reflexivity.
Defined.

(** C6 at a dry van charged for ten days and for no day. *)
Lemma C6_witness :
  In ("40FT_DRY_VAN",
      {| fuel_efficiency_km_l := 2.78; capacity_teu := 2;
         type := "General Cargo" |}) TRUCK_PROFILES
  /\ JS.ge 10 1 = true
  /\ calculateTransportCost 500 "40FT_DRY_VAN" 10 1000 50 2000
     = inr {| fuelCostETB := 500 / 2.78 * 50;
              driverCostETB := 10 * 1000;
              truckRentETB := 10 * 2000;
              totalTransportCost := 500 / 2.78 * 50 + 10 * 1000 + 10 * 2000;
              totalLitersUsed := 500 / 2.78 |}
  /\ JS.le 0 0 = true
  /\ calculateTransportCost 500 "40FT_DRY_VAN" 0 1000 50 2000
     = inr {| fuelCostETB := 500 / 2.78 * 50;
              driverCostETB := 1 * 1000;
              truckRentETB := 1 * 2000;
              totalTransportCost := 500 / 2.78 * 50 + 1 * 1000 + 1 * 2000;
              totalLitersUsed := 500 / 2.78 |}
  /\ calculateTransportCost 500 "40FT_DRY_VAN" 0 1000 50 2000
     = calculateTransportCost 500 "40FT_DRY_VAN" 1 1000 50 2000.
Proof.
  assert (Hin : In ("40FT_DRY_VAN",
                    {| fuel_efficiency_km_l := 2.78; capacity_teu := 2;
                       type := "General Cargo" |}) TRUCK_PROFILES)
    by (left; reflexivity).
  split; [ exact Hin | ]. split; [ reflexivity | ].
  destruct (C6_transport_cost "40FT_DRY_VAN" _ 500 10 1000 50 2000 Hin)
    as (ten & Hten & _ & Hge & _).
  destruct (C6_transport_cost "40FT_DRY_VAN" _ 500 0 1000 50 2000 Hin)
    as (one & Hone & _ & _ & _ & _ & Hle).
  destruct (Hle eq_refl) as (Hd & Hsame).
  split; [ rewrite Hten, (Hge eq_refl); reflexivity | ].
  split; [ reflexivity | ].
  split; [ rewrite Hone, Hd; reflexivity | exact Hsame ].
Defined.

(** C7 at an export, at a rate of zero and at an import at 10 percent. *)
Lemma C7_witness :
  dutyCost (calculateCustomsDuty (host := integer_host) 100000 10 true) = 0
  /\ dutyCost (calculateCustomsDuty (host := integer_host) 100000 0 false) = 0
  /\ calculateCustomsDuty (host := integer_host) 100000 10 false
     = {| dutyCost := 10000;
          dutyNotes := "Calculated on CIF Value (100,000.00 ETB) at 10%." |}
  /\ JS.gt 10 0 = true.
Proof.
  destruct (C7_customs_duty (host := integer_host) 100000 10 true) as (E & _).
  destruct (C7_customs_duty (host := integer_host) 100000 0 false) as (Z & _).
  destruct (C7_customs_duty (host := integer_host) 100000 10 false)
    as (_ & I & T).
  split; [ | split; [ | split ] ].
  - rewrite E; [ reflexivity | left; reflexivity ].
  - rewrite Z; [ reflexivity | right; reflexivity ].
  - rewrite I; reflexivity.
  - apply T; reflexivity.
Defined.

(** C8 at the example and at the same shipment exported with other tariff
    and duty inputs. *)
Lemma C8_witness :
  exists r1 l1',
    calculateTotalCost (host := integer_host) example_inputs [] = (inr r1, l1')
    /\ exists r2 l2',
      calculateTotalCost (host := integer_host) export_inputs [] = (inr r2, l2')
      /\ vatCost (Result.tax r2) = vatCost (Result.tax r1)
      /\ whtCost (Result.tax r2) = whtCost (Result.tax r1).
Proof.
  eexists. eexists. split; [ by_evaluation | ].
  destruct (C8_tax_base_noninterference
              (host := integer_host) example_inputs export_inputs [] _ [] _
              eq_refl eq_refl eq_refl eq_refl eq_refl eq_refl eq_refl
              eq_refl eq_refl ltac:(by_evaluation))
    as (r2 & l2' & E2 & Hv & Hw & _).
  exists r2, l2'. repeat split; assumption.
Defined.

(** C10 at the shipment of the example. *)
Lemma C10_witness :
  exists r l',
    calculateTotalCost (host := integer_host) example_inputs [] = (inr r, l')
    /\ Result.totalOptimizedCost r = "58,005.58"
    /\ exists (n : Z) (int frac : string),
      Text.nearest_integer n 7972226586468764 (-37) 2
      /\ Text.fixed_digits n 2 = int ++ "." ++ frac
      /\ Result.totalOptimizedCost r
         = Text.group_thousands int ++ "." ++ frac.
Proof.
  eexists. eexists. split; [ by_evaluation | ].
  destruct (C10_total_is_formatted_string
              (host := integer_host) example_inputs [] _ _ ltac:(by_evaluation))
    as (Hc & _ & Hfin & _).
  split.
  - rewrite Hc. reflexivity.
  - destruct (Hfin false 7972226586468764%positive (-37)%Z eq_refl eq_refl)
      as (n & int & frac & Hn & Hd & _ & _ & _ & _ & Hs).
    exists n, int, frac. repeat split; assumption.
Defined.

(** C10 as the specification words it fails: a shipment that passes the
    validation, on which the engine returns, and whose total is displayed as
    Infinity, which is no number of two decimals with separators. *)
Lemma C10_counterexample :
  invalidInputs overflow_inputs = false
  /\ exists r l',
    calculateTotalCost (host := integer_host) overflow_inputs [] = (inr r, l')
    /\ Result.totalOptimizedCost r = "Infinity"
    /\ ~ Text.two_decimal_display (Result.totalOptimizedCost r).
Proof.
  split; [ reflexivity | ].
  eexists. eexists. split; [ by_evaluation | ].
  split; [ by_evaluation | ].
  apply TextFacts.two_decimal_display_point. by_evaluation.
Qed.

(** Two shipments whose totals differ and are displayed alike: the string
    does not hold the full-precision total. *)
Example display_loses_precision :
  exists r1 r2 l1 l2,
    calculateTotalCost (host := integer_host) example_inputs [] = (inr r1, l1)
    /\ calculateTotalCost
         (host := integer_host)
         {| distanceKm := 500; estimatedDays := 10; truckType := "40FT_DRY_VAN";
            isExport := false; numStops := 1; cifValue := 100000.01;
            driverCost := 1000; truckRentalCost := 2000; fuelPrice := 50;
            vatRate := 15; whtRate := 2; inspectionFee := 500;
            handlingCost := 1500; customsDutyRate := 10 |} []
       = (inr r2, l2)
    /\ Result.totalOptimizedCost r1 = Result.totalOptimizedCost r2
    /\ dutyCost (Result.duty r1) <> dutyCost (Result.duty r2).
Proof.
  eexists. eexists. eexists. eexists.
  split; [ vm_compute; reflexivity | ].
  split; [ vm_compute; reflexivity | ].
  split; [ reflexivity | ].
  intros H. apply (f_equal Prim2SF) in H. vm_compute in H. discriminate H.
Qed.


(** * Further facts on the text functions *)

Module StripFacts.
Lemma without_commas_append (a b : string) :
  without_commas (a ++ b) = without_commas a ++ without_commas b.
Proof.
  induction a as [ | c a IH ]; cbn; [ reflexivity | ].
  rewrite IH. destruct (Ascii.eqb c ","); reflexivity.
Qed.

(** X2.  The thousands separator of [formatETB] only inserts commas:
    whatever the string and the character before it, taking the commas out
    of the result gives the string without its own commas, so no character
    is dropped, changed or moved. *)
Lemma insert_commas_only_commas (s : string) :
  forall p : bool, without_commas (Text.insert_commas p s) = without_commas s.
Proof.
  induction s as [ | c s IH ]; intros p; [ reflexivity | ].
  cbn [Text.insert_commas]. rewrite without_commas_append.
  cbn [without_commas]. rewrite IH.
  destruct (p && _ && _); reflexivity.
Qed.

Lemma skip_spaces_length (s : string) :
  (String.length (Text.skip_spaces s) <= String.length s)%nat.
Proof.
  induction s as [ | c s IH ]; cbn; [ lia | ].
  destruct (Text.is_space c); cbn; lia.
Qed.

Lemma skip_spaces_includes (needle s : string) :
  includes needle s = false -> includes needle (Text.skip_spaces s) = false.
Proof.
  induction s as [ | c s IH ]; cbn [Text.skip_spaces]; [ trivial | ].
  destruct (Text.is_space c); [ | trivial ].
  intros H. apply IH. cbn [includes] in H.
  apply orb_false_iff in H. apply H.
Qed.

Lemma after_last_rparen_length (s r : string) :
  Text.after_last_rparen s = Some r -> (String.length r < String.length s)%nat.
Proof.
  revert r. induction s as [ | c s IH ]; intros r; cbn; [ discriminate | ].
  destruct (Text.is_line_terminator c); [ discriminate | ].
  destruct (Text.after_last_rparen s) as [ r' | ].
  - intros E. inversion E; subst. specialize (IH r eq_refl). lia.
  - destruct (Ascii.eqb c ")"); [ | discriminate ].
    intros E. inversion E; subst. lia.
Qed.

Lemma match_parenthetical_length (s r : string) :
  Text.match_parenthetical s = Some r -> (String.length r < String.length s)%nat.
Proof.
  unfold Text.match_parenthetical.
  pose proof (skip_spaces_length s) as Hs.
  destruct (Text.skip_spaces s) as [ | c s' ]; [ discriminate | ].
  destruct (Ascii.ascii_dec c "(") as [ -> | N ].
  - intros E. apply after_last_rparen_length in E. cbn in Hs. lia.
  - destruct c as [[|] [|] [|] [|] [|] [|] [|] [|]]; try discriminate.
    contradiction N. reflexivity.
Qed.

Lemma match_parenthetical_none (s : string) :
  includes "(" s = false -> Text.match_parenthetical s = None.
Proof.
  intros H. apply (skip_spaces_includes "(") in H.
  unfold Text.match_parenthetical.
  destruct (Text.skip_spaces s) as [ | c s' ]; [ reflexivity | ].
  destruct (Ascii.ascii_dec c "(") as [ -> | N ].
  - cbn [includes prefix] in H.
    destruct (ascii_dec "(" "(") as [ _ | N ]; [ | contradiction N; reflexivity ].
    destruct s'; discriminate H.
  - destruct c as [[|] [|] [|] [|] [|] [|] [|] [|]]; try reflexivity.
    contradiction N. reflexivity.
Qed.

(** X3.  The cleaning of a tariff name for display leaves a name with no
    opening parenthesis as it is, and never makes a name longer. *)
Theorem strip_parenthetical_spec (s : string) :
  (includes "(" s = false -> Text.strip_parenthetical s = s)
  /\ (String.length (Text.strip_parenthetical s) <= String.length s)%nat.
Proof.
  split.
  - induction s as [ | c s IH ]; intros H.
    + reflexivity.
    + cbn [Text.strip_parenthetical].
      rewrite (match_parenthetical_none _ H).
      cbn [includes] in H. apply orb_false_iff in H. destruct H as [_ H].
      rewrite (IH H). reflexivity.
  - induction s as [ | c s IH ].
    + cbn. lia.
    + cbn [Text.strip_parenthetical].
      destruct (Text.match_parenthetical (String c s)) as [ r | ] eqn:E.
      * apply match_parenthetical_length in E. lia.
      * cbn. lia.
Qed.
End StripFacts.

(** * Further properties of the engine *)

Section MoreProperties.
Context {host : Host}.

(** ** The transport calculator *)

Lemma TRUCK_PROFILES_get_known (truckType : string) (profile : TruckProfile) :
  In (truckType, profile) TRUCK_PROFILES ->
  TRUCK_PROFILES_get truckType = Profile profile.
Proof.
  intros [ E | [ E | [ E | [] ] ] ]; inversion E; subst; reflexivity.
Qed.

(** X4.  Billable days.  For a truck type of the rate table, a trip of at least
    one day is charged its own number of days for driver and rental, and a
    trip of less than one day, zero and negative durations included, is
    charged one day. *)
Theorem billable_days
        (truckType : string) (profile : TruckProfile)
        (distanceKm estimatedDays driverDailyWage fuelPrice truckRentalCost : float)
        (t : TransportResult) :
  In (truckType, profile) TRUCK_PROFILES ->
  calculateTransportCost distanceKm truckType estimatedDays driverDailyWage
                         fuelPrice truckRentalCost = inr t ->
  (JS.ge estimatedDays 1 = true ->
   driverCostETB t = estimatedDays * driverDailyWage
   /\ truckRentETB t = estimatedDays * truckRentalCost)
  /\ (JS.lt estimatedDays 1 = true ->
      driverCostETB t = 1 * driverDailyWage
      /\ truckRentETB t = 1 * truckRentalCost).
Proof.
  intros Hin. unfold calculateTransportCost.
  rewrite (TRUCK_PROFILES_get_known _ _ Hin).
  cbn [read_fuel_efficiency_km_l]. intros Ht. inversion Ht; subst t; clear Ht.
  cbn [driverCostETB truckRentETB]. split; intros Hd.
  - rewrite (SignFacts.Math_max_1_ge _ Hd). split; reflexivity.
  - rewrite (SignFacts.Math_max_1_lt _ Hd). split; reflexivity.
Qed.

(** ** The tariff calculator *)

(** X5.  What is listed and what is left out.  The breakdown holds the handling
    fee when handlingCost > 0, at 0.40 of it for an export, the inspection
    fee when inspectionFee > 0, and the storage penalty always, in this
    order; a fee that is zero, negative or NaN is left out, and the total is
    the sum of what is listed. *)
Theorem breakdown_closed_form (d : float) (ex : bool) (h i : float) :
  map (fun item => (Item.name item, Item.cost item))
      (breakdown (calculateTariffCost d ex h i))
  = ((if JS.gt h 0
      then [ ("Dry Port Handling", if ex then h * 0.40 else h) ] else [])
     ++ (if JS.gt i 0 then [ ("Customs Inspection Fee", i) ] else [])
     ++ [ ("Storage Penalty", if JS.gt d 8 then (d - 8) * 192.00 else 0) ])%list
  /\ totalTariffCost (calculateTariffCost d ex h i)
     = JS.sum ((if JS.gt h 0 then [ if ex then h * 0.40 else h ] else [])
               ++ (if JS.gt i 0 then [ i ] else [])
               ++ [ if JS.gt d 8 then (d - 8) * 192.00 else 0 ])%list.
Proof.
  pose proof (breakdown_entries d ex h i) as H.
  split; [ exact H | ].
  rewrite calculateTariffCost_total. f_equal.
  apply (f_equal (map snd)) in H. rewrite map_map in H. cbn [snd] in H.
  etransitivity; [ exact H | ].
  destruct (JS.gt h 0), (JS.gt i 0); reflexivity.
Qed.

Lemma sum_nonneg (l : list float) :
  Forall (fun c => JS.ge c 0 = true) l ->
  forall acc : float, JS.ge acc 0 = true -> JS.ge (fold_left add l acc) 0 = true.
Proof.
  unfold JS.ge. induction 1 as [ | c l Hc _ IH ]; intros acc Hacc; cbn.
  - exact Hacc.
  - apply IH. apply SignFacts.add_nonneg; assumption.
Qed.

Lemma breakdown_costs_nonneg (d : float) (ex : bool) (h i : float) :
  Forall (fun c => JS.ge c 0 = true)
         (map Item.cost (breakdown (calculateTariffCost d ex h i))).
Proof.
  pose proof (breakdown_entries d ex h i) as H.
  apply (f_equal (map snd)) in H. rewrite map_map in H. cbn [snd] in H.
  change (map Item.cost (breakdown (calculateTariffCost d ex h i)))
    with (map (fun x => Item.cost x) (breakdown (calculateTariffCost d ex h i))).
  rewrite H. clear H. unfold JS.ge, JS.gt.
  assert (Hh : (0 <? h) = true -> (0 <=? (if ex then h * 0.40 else h)) = true).
  { intros Hp. destruct ex; [ | exact (SignFacts.ltb_leb _ _ Hp) ].
    eapply SignFacts.mul_pos_nonneg; [ vm_compute; reflexivity | exact Hp ]. }
  assert (Hs : (0 <=? (if 8 <? d then (d - 8) * 192.00 else 0)) = true).
  { destruct (8 <? d) eqn:Hd; [ | reflexivity ].
    eapply SignFacts.mul_pos_nonneg; [ vm_compute; reflexivity | ].
    rewrite FloatFacts.sub_pos. exact Hd. }
  destruct (0 <? h) eqn:Eh, (0 <? i) eqn:Ei; cbn [map app];
    repeat constructor;
    try exact Hs; try (apply Hh; reflexivity);
    try exact (SignFacts.ltb_leb _ _ Ei).
Qed.

(** X6.  No negative charge.  Whatever the days and the rates, negative, infinite
    or NaN, every cost of the breakdown and the tariff total are at least 0,
    hence never NaN. *)
Theorem tariff_costs_nonnegative (d : float) (ex : bool) (h i : float) :
  Forall (fun item => JS.ge (Item.cost item) 0 = true)
         (breakdown (calculateTariffCost d ex h i))
  /\ JS.ge (totalTariffCost (calculateTariffCost d ex h i)) 0 = true
  /\ is_nan (totalTariffCost (calculateTariffCost d ex h i)) = false.
Proof.
  pose proof (breakdown_costs_nonneg d ex h i) as H.
  assert (Ht : JS.ge (totalTariffCost (calculateTariffCost d ex h i)) 0 = true).
  { rewrite calculateTariffCost_total. apply sum_nonneg; [ exact H | reflexivity ]. }
  split; [ | split ].
  - apply Forall_map in H. exact H.
  - exact Ht.
  - apply (FloatFacts.leb_not_nan _ _ Ht).
Qed.

(** ** The orchestrator and its caller *)

(** X7.  The entries a run that returns appends to the log: the start, the
    optimization note when there are three stops or more, the tax line and
    the total, which is the string the result holds; what was logged before
    is kept. *)
Theorem calculateTotalCost_log
        (inputs : Inputs) (l l' : list LogEntry) (r : Result.t) :
  calculateTotalCost inputs l = (inr r, l') ->
  l' = (l
        ++ [ {| entry_type := "INFO";
                entry_message :=
                  "Starting Total Cost Calculation (Reading all rates from Display)..." |} ]
        ++ (if JS.ge (numStops inputs) 3
            then [ {| entry_type := "SUCCESS";
                      entry_message := Optimization.notes (Result.optimization r) |} ]
            else [])
        ++ [ {| entry_type := "INFO";
                entry_message :=
                  "Tax Calculation: VAT (" ++ NumberToString (vatRate inputs)
                  ++ "%) + WHT (" ++ NumberToString (whtRate inputs)
                  ++ "%) applied to Transport Subtotal." |};
             {| entry_type := "SUCCESS";
                entry_message :=
                  "Total Cost Calculated: " ++ Result.totalOptimizedCost r
                  ++ " ETB" |} ])%list.
Proof.
  unfold calculateTotalCost, bind, log, lift, ret.
  destruct (optimizeRoute (distanceKm inputs) (numStops inputs))
    as [actual note].
  destruct (JS.ge (numStops inputs) 3);
    (destruct (calculateTransportCost actual _ _ _ _ _) as [ e | t ];
     intros H; inversion H; subst; clear H;
     cbn [Result.totalOptimizedCost Result.optimization Optimization.notes app];
     rewrite <- ?app_assoc; reflexivity).
Qed.

(** X8.  A truck type the lookup does not find.  When the truck type is neither
    a key of the rate table nor a name inherited from [Object.prototype],
    the orchestrator throws the [TypeError] of the property read, having
    logged only its start and, with three stops or more, the optimization
    note; no tariff, duty or tax is computed into a result.  For inputs
    that pass the validation [handleCalculation] catches the exception,
    logs it and shows its message as a critical error. *)
Theorem unknown_truck_type_fails (inputs : Inputs) (l : list LogEntry) :
  own_property (truckType inputs) TRUCK_PROFILES = None ->
  existsb (String.eqb (truckType inputs)) Object_prototype = false ->
  exists started : list LogEntry,
    started
    = ([ {| entry_type := "INFO";
            entry_message :=
              "Starting Total Cost Calculation (Reading all rates from Display)..." |} ]
       ++ (if JS.ge (numStops inputs) 3
           then [ {| entry_type := "SUCCESS";
                     entry_message :=
                       snd (optimizeRoute (distanceKm inputs) (numStops inputs)) |} ]
           else []))%list
    /\ calculateTotalCost inputs l
       = (inl (TypeError
                 "Cannot read properties of undefined (reading 'fuel_efficiency_km_l')"),
          (l ++ started)%list)
    /\ (invalidInputs inputs = false ->
        handleCalculation inputs l
        = (inr (CriticalError
                  "Cannot read properties of undefined (reading 'fuel_efficiency_km_l')"),
           (l ++ [ {| entry_type := "INFO"; entry_message := "Logs cleared." |} ]
              ++ started
              ++ [ {| entry_type := "CRITICAL ERROR";
                      entry_message :=
                        "Calculation Failed: Cannot read properties of undefined (reading 'fuel_efficiency_km_l')" |} ])%list)).
Proof.
  intros Hown Hproto. eexists. split; [ reflexivity | ].
  unfold handleCalculation, try_catch, clearLogs.
  unfold calculateTotalCost, bind, log, lift, ret.
  destruct (optimizeRoute (distanceKm inputs) (numStops inputs))
    as [actual note].
  rewrite !(calculateTransportCost_undefined _ _ _ _ _ _ Hown Hproto).
  cbn [snd].
  destruct (JS.ge (numStops inputs) 3);
    (split; [ rewrite <- ?app_assoc; reflexivity | ]);
    intros ->; cbn [message]; rewrite <- ?app_assoc; reflexivity.
Qed.

Lemma existsb_false_Forall {A : Type} (f : A -> bool) (l : list A) :
  existsb f l = false <-> Forall (fun x => f x = false) l.
Proof.
  induction l as [ | x l IH ]; cbn.
  - split; [ constructor | reflexivity ].
  - rewrite orb_false_iff, IH. split.
    + intros [Hx Hl]. constructor; assumption.
    + intros H. inversion H; subst. split; assumption.
Qed.

(** X9.  What the validation lets through.  A gathered record passes exactly
    when none of its twelve numbers is NaN, the distance and the days are
    above 0 and there is at least one stop.  Nothing else is looked at:
    rates and prices may be zero, negative or infinite, and the truck type
    may be any string. *)
Theorem validation_accepts (inputs : Inputs) :
  invalidInputs inputs = false
  <-> (Forall (fun x => is_nan x = false)
              [ distanceKm inputs; estimatedDays inputs; numStops inputs;
                cifValue inputs; driverCost inputs; truckRentalCost inputs;
                fuelPrice inputs; vatRate inputs; whtRate inputs;
                inspectionFee inputs; handlingCost inputs;
                customsDutyRate inputs ]
       /\ JS.gt (distanceKm inputs) 0 = true
       /\ JS.gt (estimatedDays inputs) 0 = true
       /\ JS.ge (numStops inputs) 1 = true).
Proof.
  unfold invalidInputs, JS.gt, JS.ge, JS.le, JS.lt.
  rewrite !orb_false_iff, existsb_false_Forall. split.
  - intros (((N & Hd) & He) & Hn).
    split; [ exact N | ].
    pose proof N as N'. rewrite Forall_forall in N'.
    assert (Nd : is_nan (distanceKm inputs) = false) by (apply N'; cbn; tauto).
    assert (Ne : is_nan (estimatedDays inputs) = false) by (apply N'; cbn; tauto).
    assert (Nn : is_nan (numStops inputs) = false) by (apply N'; cbn; tauto).
    split; [ | split ].
    + exact (FloatFacts.not_leb_ltb _ 0 Nd eq_refl Hd).
    + exact (FloatFacts.not_leb_ltb _ 0 Ne eq_refl He).
    + exact (SignFacts.not_ltb_leb _ 1 Nn eq_refl Hn).
  - intros (N & Hd & He & Hn). repeat split.
    + exact N.
    + exact (FloatFacts.ltb_leb_false _ _ Hd).
    + exact (FloatFacts.ltb_leb_false _ _ He).
    + exact (FloatFacts.leb_ltb_false _ _ Hn).
Qed.

(** X10.  The three ways [handleCalculation] ends.  It never lets an exception
    out.  A record that fails the validation gives the input error, with
    the log holding the clearing and the error line and nothing of the
    engine, which is not run.  A record that passes gives the critical
    error exactly when the lookup of its truck type finds nothing, and
    otherwise the report of the result the engine returns. *)
Theorem handleCalculation_outcomes (inputs : Inputs) (l : list LogEntry) :
  exists (o : Outcome) (l' : list LogEntry),
    handleCalculation inputs l = (inr o, l')
    /\ (invalidInputs inputs = true ->
        o = InputError
        /\ l' = (l ++ [ {| entry_type := "INFO";
                           entry_message := "Logs cleared." |};
                        {| entry_type := "ERROR";
                           entry_message :=
                             "Please enter valid, positive numbers for all fields." |} ])%list)
    /\ (invalidInputs inputs = false ->
        TRUCK_PROFILES_get (truckType inputs) = Undefined ->
        exists m : string, o = CriticalError m)
    /\ (invalidInputs inputs = false ->
        TRUCK_PROFILES_get (truckType inputs) <> Undefined ->
        exists (r : Result.t) (l1 : list LogEntry),
          o = Report r
          /\ calculateTotalCost
               inputs
               (l ++ [ {| entry_type := "INFO";
                          entry_message := "Logs cleared." |} ])%list
             = (inr r, l1)
          /\ l' = l1).
Proof.
  unfold handleCalculation, try_catch, clearLogs.
  unfold bind at 1. unfold log at 1.
  destruct (invalidInputs inputs).
  - eexists. eexists. split; [ reflexivity | ].
    split; [ | split; discriminate ].
    intros _. split; [ reflexivity | ].
    rewrite <- app_assoc. reflexivity.
  - set (l0 := (l ++ [ {| entry_type := "INFO";
                         entry_message := "Logs cleared." |} ])%list).
    unfold bind at 1.
    destruct (calculateTotalCost inputs l0) as [[e | r] l1] eqn:E.
    + eexists. eexists. split; [ reflexivity | ].
      split; [ discriminate | ]. split.
      * intros _ _. eexists. reflexivity.
      * intros _ Hdef. exfalso. apply Hdef.
        apply calculateTotalCost_throws in E.
        unfold calculateTransportCost in E.
        destruct (TRUCK_PROFILES_get (truckType inputs));
          [ discriminate E | discriminate E | reflexivity ].
    + eexists. eexists. split; [ reflexivity | ].
      split; [ discriminate | ]. split.
      * intros _ Hundef. exfalso.
        apply calculateTotalCost_returns in E. destruct E as (E & _).
        unfold calculateTransportCost in E. rewrite Hundef in E.
        discriminate E.
      * intros _ _. exists r, l1. repeat split; reflexivity.
Qed.

(** X11.  NaN is shown as 0.00.  When the transport total or the duty a run
    returns is NaN, the total the result holds is the string 0.00; with a
    NaN transport total the VAT, the WHT and the tax total are NaN too. *)
Theorem nan_total_is_masked
        (inputs : Inputs) (l l' : list LogEntry) (r : Result.t) :
  calculateTotalCost inputs l = (inr r, l') ->
  (is_nan (totalTransportCost (Result.transport r)) = true
   \/ is_nan (dutyCost (Result.duty r)) = true ->
   Result.totalOptimizedCost r = "0.00")
  /\ (is_nan (totalTransportCost (Result.transport r)) = true ->
      is_nan (vatCost (Result.tax r)) = true
      /\ is_nan (whtCost (Result.tax r)) = true
      /\ is_nan (totalTax (Result.tax r)) = true).
Proof.
  intros H. apply calculateTotalCost_returns in H.
  destruct H as (_ & _ & _ & Hx & Hc & _). split.
  - intros Hnan. rewrite Hc. unfold formatETB.
    replace (is_nan _) with true; [ reflexivity | ]. symmetry.
    apply SignFacts.is_nan_add_l.
    destruct Hnan as [ Ht | Hd ].
    + apply SignFacts.is_nan_add_l. exact Ht.
    + apply SignFacts.is_nan_add_r. apply SignFacts.is_nan_add_r. exact Hd.
  - intros Ht. rewrite Hx. cbn [calculateTaxCost vatCost whtCost totalTax].
    unfold calculateTaxCost. cbn [vatCost whtCost totalTax].
    repeat split.
    + apply SignFacts.is_nan_mul_l. exact Ht.
    + apply SignFacts.is_nan_mul_l. exact Ht.
    + apply SignFacts.is_nan_add_l. apply SignFacts.is_nan_mul_l. exact Ht.
Qed.

(** ** The rows of the report *)

Lemma item_rows (results : Result.t) (items : list Item.t) :
  forall rows : list string,
    fold_left (pushItemRow results) items rows
    = (rows
       ++ map (fun item => formatRow ("&nbsp;&nbsp;" ++ Item.name item)
                                     (Item.cost item) true)
              (filter (fun item =>
                         JS.gt (Item.cost item) 0
                         || (includes "Penalty" (Item.name item)
                             && JS.gt (estimatedDays (Result.rates results)) 8))
                      items))%list.
Proof.
  induction items as [ | item items IH ]; intros rows; cbn [fold_left filter].
  - cbn [map]. rewrite app_nil_r. reflexivity.
  - unfold pushItemRow at 2.
    destruct (JS.gt (Item.cost item) 0 || _); rewrite IH; cbn [map].
    + rewrite <- app_assoc. reflexivity.
    + reflexivity.
Qed.

(** The test on the name and the days adds no row: on what the tariff
    calculator lists, it holds only of entries whose cost is positive. *)
Lemma penalty_test_redundant (d : float) (ex : bool) (h i : float)
      (item : Item.t) :
  In item (breakdown (calculateTariffCost d ex h i)) ->
  JS.gt (Item.cost item) 0 || (includes "Penalty" (Item.name item) && JS.gt d 8)
  = JS.gt (Item.cost item) 0.
Proof.
  intros Hin.
  apply (in_map (fun item => (Item.name item, Item.cost item))) in Hin.
  rewrite breakdown_entries in Hin.
  destruct (Item.name item) as [ | c n ] eqn:En;
    destruct (JS.gt h 0), (JS.gt i 0); cbn [app] in Hin;
    repeat (destruct Hin as [ Hin | Hin ]; [ inversion Hin; clear Hin | ]);
    try contradiction; subst;
    try (rewrite orb_false_r; reflexivity);
    try (cbn; rewrite orb_false_r; reflexivity);
    (change (includes "Penalty" "Storage Penalty") with true; cbn [andb];
     unfold JS.gt; destruct (8 <? d) eqn:Hd;
     [ rewrite orb_true_r; symmetry;
       eapply SignFacts.mul_pos_pos;
       [ vm_compute; reflexivity | vm_compute; discriminate
       | rewrite FloatFacts.sub_pos; exact Hd ]
     | apply orb_false_r ]).
Qed.

(** X12.  The tariff rows of the report.  For a result the engine returns, the
    rows after the duty row are those of the breakdown entries whose cost is
    above 0, in order; so a handling fee discounted down to nothing and the
    storage penalty of a trip of 8 days or less are listed in the breakdown
    and not shown. *)
Theorem report_tariff_rows
        (inputs : Inputs) (l l' : list LogEntry) (r : Result.t) :
  calculateTotalCost inputs l = (inr r, l') ->
  tariffBreakdownRows r
  = (dutyRows r
     ++ map (fun item => formatRow ("&nbsp;&nbsp;" ++ Item.name item)
                                   (Item.cost item) true)
            (filter (fun item => JS.gt (Item.cost item) 0)
                    (breakdown (Result.tariffs r))))%list
  /\ (JS.le (estimatedDays inputs) 8 = true ->
      ~ In "Storage Penalty"
           (map Item.name (filter (fun item => JS.gt (Item.cost item) 0)
                                  (breakdown (Result.tariffs r))))).
Proof.
  intros H. apply calculateTotalCost_returns in H.
  destruct H as (_ & Hf & _ & _ & _ & _ & Hr & _).
  unfold tariffBreakdownRows. rewrite item_rows, Hr, Hf. split.
  - f_equal. f_equal. apply filter_ext_in. intros item Hin.
    exact (penalty_test_redundant _ _ _ _ _ Hin).
  - intros Hle Hin. apply in_map_iff in Hin.
    destruct Hin as (item & Hname & Hin). apply filter_In in Hin.
    destruct Hin as (Hin & Hpos).
    apply (in_map (fun item => (Item.name item, Item.cost item))) in Hin.
    rewrite breakdown_entries, Hname in Hin.
    apply FloatFacts.leb_ltb_false in Hle. unfold JS.gt in Hin at 3.
    rewrite Hle in Hin.
    destruct (JS.gt (handlingCost inputs) 0), (JS.gt (inspectionFee inputs) 0);
      cbn [app] in Hin;
      repeat (destruct Hin as [ Hin | Hin ]; [ inversion Hin; clear Hin | ]);
      try contradiction.
    all: match goal with
         | E : 0 = Item.cost _ |- _ => rewrite <- E in Hpos; discriminate Hpos
         end.
Qed.

(** X13.  The duty row of the report.  For a result the engine returns, the
    customs duty row is shown exactly when customsDutyRate > 0, for an
    export too, where the amount it shows is 0. *)
Theorem report_duty_row
        (inputs : Inputs) (l l' : list LogEntry) (r : Result.t) :
  calculateTotalCost inputs l = (inr r, l') ->
  dutyRows r
  = (if JS.gt (customsDutyRate inputs) 0
     then [ formatRow ("&nbsp;&nbsp;Gomruk Customs Duty ("
                       ++ NumberToString (customsDutyRate inputs) ++ "%)")
                      (if isExport inputs
                       then 0
                       else cifValue inputs * (customsDutyRate inputs / 100))
                      true ]
     else []).
Proof.
  intros H. apply calculateTotalCost_returns in H.
  destruct H as (_ & _ & Hd & _ & _ & _ & Hr & _).
  unfold dutyRows. rewrite Hr, Hd. unfold calculateCustomsDuty.
  destruct (isExport inputs); cbn [negb andb dutyCost].
  - change (JS.gt 0 0) with false. cbn [orb].
    destruct (JS.gt (customsDutyRate inputs) 0); reflexivity.
  - destruct (JS.gt (customsDutyRate inputs) 0); cbn [dutyCost].
    + rewrite orb_true_r. reflexivity.
    + reflexivity.
Qed.

(** ** The display of amounts *)

(** X1.  What [formatETB] shows.  NaN and both zeros are shown as 0.00.  A
    finite number below 10^21 in magnitude is shown as the nearest number of
    hundredths: a minus sign if it is negative, the digits before the last
    two grouped by threes with commas, a point and the last two digits. *)
Theorem formatETB_display (x : float) :
  (is_nan x = true -> formatETB x = "0.00")
  /\ (is_zero x = true -> formatETB x = "0.00")
  /\ (forall (s : bool) (m : positive) (e : Z),
         Prim2SF x = S754_finite s m e ->
         (1e21 <=? abs x) = false ->
         exists (n : Z) (int frac : string),
           Text.nearest_integer n m e 2
           /\ Text.fixed_digits n 2 = int ++ "." ++ frac
           /\ Text.all_digits int = true /\ int <> ""
           /\ Text.all_digits frac = true /\ String.length frac = 2%nat
           /\ formatETB x
              = (if s then "-" else "") ++ Text.group_thousands int
                ++ "." ++ frac).
Proof.
  split; [ | split ].
  - unfold formatETB. intros ->. reflexivity.
  - unfold is_zero. rewrite eqb_spec. unfold SFeqb.
    change (Prim2SF zero) with (S754_zero false).
    intros Hz. unfold formatETB, toFixed.
    destruct (Prim2SF x) as [ s | s | | s m e ] eqn:E;
      try discriminate Hz; try (destruct s; discriminate Hz).
    replace (is_nan x) with false; [ reflexivity | ].
    symmetry. apply not_true_is_false. intros N.
    apply FloatFacts.is_nan_Prim2SF in N. congruence.
  - intros s m e Hx Hsmall. exact (TextFacts.formatETB_finite x s m e Hx Hsmall).
Qed.
End MoreProperties.

(** ** The further properties on samples *)

Lemma billable_days_witness :
  (exists t,
      calculateTransportCost 500 "40FT_DRY_VAN" 10 1000 50 2000 = inr t
      /\ driverCostETB t = 10 * 1000 /\ truckRentETB t = 10 * 2000)
  /\ (exists t,
         calculateTransportCost 500 "40FT_DRY_VAN" 0.5 1000 50 2000 = inr t
         /\ driverCostETB t = 1 * 1000 /\ truckRentETB t = 1 * 2000).
Proof.
  split; eexists; (split; [ by_evaluation | ]).
  - refine (proj1 (billable_days
                     "40FT_DRY_VAN"
                     {| fuel_efficiency_km_l := 2.78; capacity_teu := 2;
                        type := "General Cargo" |}
                     500 10 1000 50 2000 _ _ _) _);
      [ left; reflexivity | by_evaluation | reflexivity ].
  - refine (proj2 (billable_days
                     "40FT_DRY_VAN"
                     {| fuel_efficiency_km_l := 2.78; capacity_teu := 2;
                        type := "General Cargo" |}
                     500 0.5 1000 50 2000 _ _ _) _);
      [ left; reflexivity | by_evaluation | reflexivity ].
Defined.

Lemma calculateTotalCost_log_witness :
  exists r l',
    calculateTotalCost (host := integer_host) multi_stop_inputs [] = (inr r, l')
    /\ List.length l' = 4%nat
    /\ map entry_type l' = [ "INFO"; "SUCCESS"; "INFO"; "SUCCESS" ].
Proof.
  eexists. eexists. split; [ by_evaluation | ].
  rewrite (calculateTotalCost_log (host := integer_host) multi_stop_inputs []
                                  _ _ ltac:(by_evaluation)).
  split; reflexivity.
Defined.

Lemma unknown_truck_type_fails_witness :
  exists l l',
    calculateTotalCost (host := integer_host) unknown_truck_inputs []
    = (inl (TypeError
              "Cannot read properties of undefined (reading 'fuel_efficiency_km_l')"),
       l)
    /\ List.length l = 2%nat
    /\ handleCalculation (host := integer_host) unknown_truck_inputs []
       = (inr (CriticalError
                 "Cannot read properties of undefined (reading 'fuel_efficiency_km_l')"),
          l')
    /\ List.length l' = 4%nat.
Proof.
  destruct (unknown_truck_type_fails
              (host := integer_host) unknown_truck_inputs [] eq_refl eq_refl)
    as (started & Hs & Hrun & Hhandle).
  specialize (Hhandle eq_refl). subst started.
  eexists. eexists.
  split; [ exact Hrun | ]. split; [ reflexivity | ].
  split; [ exact Hhandle | reflexivity ].
Defined.

Lemma validation_accepts_witness :
  invalidInputs example_inputs = false
  /\ invalidInputs zero_days_inputs = true
  /\ JS.gt (estimatedDays zero_days_inputs) 0 = false.
Proof.
  split; [ | split; reflexivity ].
  apply (proj2 (validation_accepts example_inputs)).
  split; [ repeat constructor | repeat split ].
Defined.

Lemma handleCalculation_outcomes_witness :
  exists l',
    handleCalculation (host := integer_host) zero_days_inputs []
    = (inr InputError, l')
    /\ List.length l' = 2%nat.
Proof.
  destruct (handleCalculation_outcomes (host := integer_host) zero_days_inputs [])
    as (o & l' & Hrun & Hinvalid & _).
  destruct (Hinvalid eq_refl) as (Ho & Hl). subst o.
  exists l'. split; [ exact Hrun | ]. rewrite Hl. reflexivity.
Defined.

Lemma nan_total_is_masked_witness :
  exists r l',
    calculateTotalCost (host := integer_host) inherited_key_inputs []
    = (inr r, l')
    /\ is_nan (totalTransportCost (Result.transport r)) = true
    /\ Result.totalOptimizedCost r = "0.00"
    /\ is_nan (totalTax (Result.tax r)) = true.
Proof.
  eexists. eexists. split; [ by_evaluation | ].
  destruct (nan_total_is_masked
              (host := integer_host) inherited_key_inputs [] _ _
              ltac:(by_evaluation)) as (Hshow & Htax).
  split; [ reflexivity | ]. split.
  - apply Hshow. left. reflexivity.
  - apply Htax. reflexivity.
Defined.

Lemma report_tariff_rows_witness :
  exists r l',
    calculateTotalCost (host := integer_host) export_inputs [] = (inr r, l')
    /\ List.length (breakdown (Result.tariffs r)) = 1%nat
    /\ List.length (tariffBreakdownRows (host := integer_host) r) = 1%nat
    /\ exists r0 l0,
      calculateTotalCost
        (host := integer_host)
        {| distanceKm := 500; estimatedDays := 8; truckType := "40FT_DRY_VAN";
           isExport := false; numStops := 1; cifValue := 0;
           driverCost := 1000; truckRentalCost := 2000; fuelPrice := 50;
           vatRate := 15; whtRate := 2; inspectionFee := 500;
           handlingCost := 1500; customsDutyRate := 0 |} []
      = (inr r0, l0)
      /\ List.length (breakdown (Result.tariffs r0)) = 3%nat
      /\ List.length (tariffBreakdownRows (host := integer_host) r0) = 2%nat.
Proof.
  eexists. eexists. split; [ by_evaluation | ].
  split; [ reflexivity | ]. split.
  - rewrite (proj1 (report_tariff_rows (host := integer_host) export_inputs []
                                       _ _ ltac:(by_evaluation))).
    reflexivity.
  - eexists. eexists. split; [ by_evaluation | ].
    split; [ reflexivity | ].
    match goal with
    | |- context [ tariffBreakdownRows ?r ] =>
        rewrite (proj1 (report_tariff_rows
                          (host := integer_host)
                          {| distanceKm := 500; estimatedDays := 8;
                             truckType := "40FT_DRY_VAN";
                             isExport := false; numStops := 1; cifValue := 0;
                             driverCost := 1000; truckRentalCost := 2000;
                             fuelPrice := 50; vatRate := 15; whtRate := 2;
                             inspectionFee := 500; handlingCost := 1500;
                             customsDutyRate := 0 |} []
                          _ r ltac:(by_evaluation)))
    end.
    reflexivity.
Defined.

Lemma report_duty_row_witness :
  exists r l',
    calculateTotalCost (host := integer_host) multi_stop_inputs [] = (inr r, l')
    /\ dutyRows (host := integer_host) r
       = [ formatRow (host := integer_host)
                     "&nbsp;&nbsp;Gomruk Customs Duty (10%)" 0 true ].
Proof.
  eexists. eexists. split; [ by_evaluation | ].
  rewrite (report_duty_row (host := integer_host) multi_stop_inputs []
                           _ _ ltac:(by_evaluation)).
  reflexivity.
Defined.

Lemma strip_parenthetical_spec_witness :
  includes "(" "Customs Inspection Fee" = false
  /\ Text.strip_parenthetical "Customs Inspection Fee" = "Customs Inspection Fee".
Proof.
  split; [ reflexivity | ].
  apply (proj1 (StripFacts.strip_parenthetical_spec "Customs Inspection Fee")).
  reflexivity.
Defined.

Lemma formatETB_display_witness :
  formatETB (host := integer_host) (-1234.5) = "-1,234.50"
  /\ exists (n : Z) (int frac : string),
    Text.nearest_integer n 5429388417957888 (-42) 2
    /\ formatETB (host := integer_host) (-1234.5)
       = "-" ++ Text.group_thousands int ++ "." ++ frac.
Proof.
  split; [ reflexivity | ].
  destruct (formatETB_display (host := integer_host) (-1234.5)) as (_ & _ & H).
  destruct (H true 5429388417957888%positive (-42)%Z eq_refl eq_refl)
    as (n & int & frac & Hn & _ & _ & _ & _ & _ & Hs).
  exists n, int, frac. split; assumption.
Defined.
